(** * WebHdfs: the filesystem facade over the WebHDFS REST protocol

    A shallow embedding of [desktop/libs/hadoop/src/hadoop/fs/webhdfs.py]
    (Python 2).  Methods of [WebHdfs] and [File] become functions in a
    state-and-exception monad over a [World] that holds the remote server,
    the thread-local identity, the store of parameter dicts and the trace
    of requests handed to the REST transport. *)

From Stdlib Require Import ZArith String Ascii List Bool Lia.
From stdpp Require Import base option gmap strings list fin_maps.

Set Warnings "-register-all".
Local Open Scope string_scope.
Local Open Scope Z_scope.

(** ** Python values *)

(** The values that travel in a parameter dict: [int], [long] and [str]. *)
Inductive PyVal :=
| VInt (n : Z)
| VLong (n : Z)
| VStr (s : string).

(** Decoded response bodies ([simplejson] output; a raw body is a [JStr]).
    [JObj] is the decoded dict, one binding per key. *)
Inductive json :=
| JNull
| JBool (b : bool)
| JNum (n : Z)
| JStr (s : string)
| JArr (l : list json)
| JObj (kvs : list (string * json)).

(** Python truth value of a decoded body, as tested by [not x]. *)
Definition truthy (v : json) : bool :=
  match v with
  | JNull => false
  | JBool b => b
  | JNum n => negb (n =? 0)
  | JStr s => negb (String.eqb s "")
  | JArr l => match l with [] => false | _ => true end
  | JObj kvs => match kvs with [] => false | _ => true end
  end.

(** ** Exceptions *)

(** The exception wrapped into a [WebHdfsException] by the HTTP client:
    an [HTTPError] with its status code and the answer of
    [headers.getheader('location')], or an error without those attributes. *)
Inductive ParentEx :=
| HTTPError (code : Z) (location : option string)
| URLError (reason : string).

Record WebHdfsException := mkWebHdfsException {
  message : string;
  server_exc : option string;
  parent_ex : option ParentEx
}.

(** [WebHdfsException(msg)] built from a plain message: nothing wrapped,
    no server-side exception name. *)
Definition WebHdfsException_of_message (msg : string) : WebHdfsException :=
  {| message := msg; server_exc := None; parent_ex := None |}.

Definition get_parent_ex (e : WebHdfsException) : option ParentEx := parent_ex e.

Inductive exn :=
| WebHdfsExc (e : WebHdfsException)
| IOError (errno : option Z) (msg : string)
| TypeError (msg : string)
| KeyError (key : string)
| AttributeError (msg : string)
| OtherError (name : string).

Module errno.
Definition ENOENT : Z := 2.
Definition EISDIR : Z := 21.
Definition EINVAL : Z := 22.
End errno.

(** ** [safe_octal] *)

Definition octal_digit (d : Z) : ascii :=
  ascii_of_nat (48 + Z.to_nat d).

(** Octal digits of a positive number, most significant first. *)
Fixpoint octal_digits (fuel : nat) (n : Z) (acc : string) : string :=
  match fuel with
  | O => acc
  | S fuel' =>
      if n <=? 0 then acc
      else octal_digits fuel' (n / 8) (String (octal_digit (n mod 8)) acc)
  end.

(** Python 2 [oct] on an [int]: ['0'] for zero, otherwise an optional sign,
    a leading ['0'] and the octal digits. *)
Definition oct_int (n : Z) : string :=
  if n =? 0 then "0"
  else
    let a := Z.abs n in
    let body := "0" +:+ octal_digits (S (Z.to_nat (Z.log2 a))) a "" in
    if n <? 0 then "-" +:+ body else body.

(** [oct(v)]: defined on numbers, [TypeError] on a [str]. *)
Definition py_oct (v : PyVal) : exn + string :=
  match v with
  | VInt n => inr (oct_int n)
  | VLong n => inr (oct_int n +:+ "L")
  | VStr _ => inl (TypeError "oct() argument can't be converted to oct")
  end.

Definition decimal_digit (d : Z) : ascii :=
  ascii_of_nat (48 + Z.to_nat d).

Fixpoint decimal_digits (fuel : nat) (n : Z) (acc : string) : string :=
  match fuel with
  | O => acc
  | S fuel' =>
      if n <=? 0 then acc
      else decimal_digits fuel' (n / 10) (String (decimal_digit (n mod 10)) acc)
  end.

Definition str_int (n : Z) : string :=
  if n =? 0 then "0"
  else
    let a := Z.abs n in
    let body := decimal_digits (S (Z.to_nat (Z.log2 a))) a "" in
    if n <? 0 then "-" +:+ body else body.

(** [str(v)]. *)
Definition py_str (v : PyVal) : string :=
  match v with
  | VInt n => str_int n
  | VLong n => str_int n
  | VStr s => s
  end.

(** [safe_octal]: [oct], falling back to [str] on [TypeError] only. *)
Definition safe_octal (octal_value : PyVal) : exn + string :=
  match py_oct octal_value with
  | inr s => inr s
  | inl (TypeError _) => inr (py_str octal_value)
  | inl e => inl e
  end.

(** The number an octal numeral denotes (an optional sign, then digits
    [0]..[7]), as the receiving side reads a permission. *)
Fixpoint octal_value_digits (s : string) (acc : Z) : option Z :=
  match s with
  | EmptyString => Some acc
  | String c rest =>
      let d := Z.of_nat (nat_of_ascii c) - 48 in
      if (0 <=? d) && (d <? 8) then octal_value_digits rest (8 * acc + d) else None
  end.

Definition octal_value (s : string) : option Z :=
  match s with
  | EmptyString => None
  | String "-" rest =>
      match rest with
      | EmptyString => None
      | _ => Z.opp <$> octal_value_digits rest 0
      end
  | _ => octal_value_digits s 0
  end.

(** ** The world: server, identity, parameter dicts, request trace *)

Abbreviation dict := (gmap string PyVal).

(** One call handed to the REST transport: the client's base URL, the
    HTTP method, the relative path, a snapshot of the parameter dict, the
    payload and whether the body is to be decoded. *)
Record Request := mkRequest {
  rq_url : string;
  rq_method : string;
  rq_relpath : option string;
  rq_params : option dict;
  rq_data : option string;
  rq_json_decode : bool
}.

(** The remote side answers a request knowing every request before it;
    it returns a decoded body or raises.  The thread-local identity is a
    map from thread ids, the store holds every dict built so far (a dict's
    address is its index), the trace lists the requests in order. *)
Record World := mkWorld {
  srv : list Request -> Request -> exn + json;
  users : gmap nat string;
  heap : list dict;
  trace : list Request
}.

Definition M (A : Type) : Type := World -> (exn + A) * World.

Definition ret {A} (a : A) : M A := fun w => (inr a, w).
Definition raise {A} (e : exn) : M A := fun w => (inl e, w).
Definition bind {A B} (m : M A) (k : A -> M B) : M B :=
  fun w => match m w with
           | (inr a, w') => k a w'
           | (inl e, w') => (inl e, w')
           end.
(** [try: m except e: h e]. [h] answers [None] for an exception its clause
    does not match, which then propagates. *)
Definition try_except {A} (m : M A) (h : exn -> option (M A)) : M A :=
  fun w => match m w with
           | (inr a, w') => (inr a, w')
           | (inl e, w') =>
               match h e with
               | Some k => k w'
               | None => (inl e, w')
               end
           end.
Definition lift {A} (r : exn + A) : M A := fun w => (r, w).

Declare Scope py_scope.
Delimit Scope py_scope with py.
Notation "x <- m ;; k" := (bind m (fun x => k))
  (at level 100, m at next level, right associativity) : py_scope.
Notation "m ;; k" := (bind m (fun _ => k))
  (at level 100, right associativity) : py_scope.
Local Open Scope py_scope.

Fixpoint mapM {A B} (f : A -> M B) (l : list A) : M (list B) :=
  match l with
  | [] => ret []
  | a :: l' => b <- f a ;; bs <- mapM f l' ;; ret (b :: bs)
  end.

(** [v[k]] on a decoded body. *)
Fixpoint assoc (k : string) (kvs : list (string * json)) : option json :=
  match kvs with
  | [] => None
  | (k', v) :: rest => if String.eqb k k' then Some v else assoc k rest
  end.

Definition getitem (v : json) (k : string) : exn + json :=
  match v with
  | JObj kvs =>
      match assoc k kvs with
      | Some x => inr x
      | None => inl (KeyError k)
      end
  | JArr _ => inl (TypeError "list indices must be integers, not str")
  | JStr _ => inl (TypeError "string indices must be integers, not str")
  | _ => inl (TypeError "object has no attribute '__getitem__'")
  end.

(** The elements a [for] loop sees in a decoded body. *)
Definition py_iter (v : json) : exn + list json :=
  match v with
  | JArr l => inr l
  | JObj kvs => inr (map (fun kv => JStr (fst kv)) kvs)
  | JStr s => inr (map (fun c => JStr (String c "")) (list_ascii_of_string s))
  | _ => inl (TypeError "object is not iterable")
  end.

(** [d = {k: v}]: a new dict at the next free address. *)
Definition new_dict (d : dict) : M nat :=
  fun w => (inr (length (heap w)),
            {| srv := srv w; users := users w;
               heap := heap w ++ [d]; trace := trace w |}).

(** [d[k] = v] on the dict at address [a]. *)
Definition setitem (a : nat) (k : string) (v : PyVal) : M unit :=
  fun w => (inr tt,
            {| srv := srv w; users := users w;
               heap := alter (insert k v) a (heap w); trace := trace w |}).

(** Modelled from the spec: [desktop.lib.rest.resource.Resource] is not
    among the sources.  [invoke] issues one call through the transport
    (spec 4.4): the request is recorded with the parameter dict as it is
    at that moment, and the server's answer is returned or raised. *)
Definition Resource_invoke (url method : string) (relpath : option string)
    (params : option nat) (data : option string) (json_decode : bool) : M json :=
  fun w =>
    let rq := {| rq_url := url; rq_method := method; rq_relpath := relpath;
                 rq_params := a ← params; heap w !! a;
                 rq_data := data; rq_json_decode := json_decode |} in
    (srv w (trace w) rq,
     {| srv := srv w; users := users w; heap := heap w;
        trace := trace w ++ [rq] |}).

(** Modelled from the spec: the verbs of [Resource] (spec 6, column
    Method); [get_raw] asks for the undecoded body. *)
Definition Resource_get url relpath params :=
  Resource_invoke url "GET" relpath params None true.
Definition Resource_get_raw url relpath params :=
  Resource_invoke url "GET" relpath params None false.
Definition Resource_delete url relpath params :=
  Resource_invoke url "DELETE" relpath params None true.
Definition Resource_put url relpath params :=
  Resource_invoke url "PUT" relpath params None true.

(** ** Collaborators outside this file *)

(** [webhdfs_types] and the path helpers of [hadoop.fs] are imported, not
    defined here: the stat and summary constructors (which may raise on a
    malformed body), the [isDir] attribute and the three path functions. *)
Class Collaborators := {
  Stat : Type;
  WebHdfsStat : json -> string -> exn + Stat;
  isDir : Stat -> bool;
  ContentSummary : Type;
  WebHdfsContentSummary : json -> exn + ContentSummary;
  Hdfs_normpath : string -> string;
  encode_fs_path : string -> string;
  normpath : string -> string
}.

Definition DEFAULT_USER : string := "hue_webui".
Definition DEFAULT_READ_SIZE : Z := 1024 * 1024.

(** The immutable attributes of a [WebHdfs] instance. *)
Record WebHdfs := mkWebHdfs {
  _url : string;
  _superuser : string;
  _security_enabled : bool;
  _temp_dir : string
}.

(** ** class [WebHdfs] *)

Section Facade.
Context `{Collaborators}.
  (** The instance and the thread the method runs on. *)
Variable self : WebHdfs.
Variable tid : nat.

  (** [self._root]: a [Resource] over a client for [self._url]. *)
Definition _root_get := Resource_get (_url self).
Definition _root_get_raw := Resource_get_raw (_url self).
Definition _root_delete := Resource_delete (_url self).
Definition _root_put := Resource_put (_url self).
Definition _root_invoke (method : string) relpath params :=
    Resource_invoke (_url self) method relpath params None true.

  (** [self._thread_local.user]: an attribute of this thread only. *)
Definition thread_local_user : M string :=
    fun w => match users w !! tid with
             | Some u => (inr u, w)
             | None => (inl (AttributeError "'thread._local' object has no attribute 'user'"), w)
             end.

Definition _getparams : M nat :=
    u <- thread_local_user ;;
    new_dict {[ "user.name" := VStr u ]}.

Definition setuser (user : string) : M unit :=
    fun w => (inr tt,
              {| srv := srv w; users := <[tid := user]> (users w);
                 heap := heap w; trace := trace w |}).

Definition listdir_stats (path : string) (glob : option PyVal) : M (list Stat) :=
    let path := encode_fs_path (Hdfs_normpath path) in
    params <- _getparams ;;
    match glob with
    | Some g => setitem params "filter" g
    | None => ret tt
    end ;;
    setitem params "op" (VStr "LISTSTATUS") ;;
    json <- _root_get (Some path) (Some params) ;;
    statuses <- lift (getitem json "FileStatuses") ;;
    filestatus_list <- lift (getitem statuses "FileStatus") ;;
    items <- lift (py_iter filestatus_list) ;;
    mapM (fun st => lift (WebHdfsStat st path)) items.

  (** [listdir] passes [self] twice to [listdir_stats], one argument more
      than it takes. *)
Definition listdir (path : string) (glob : option PyVal) : M (list string) :=
    raise (TypeError "listdir_stats() takes at most 3 arguments (4 given)").

Definition get_content_summary (path : string) : M ContentSummary :=
    let path := encode_fs_path (Hdfs_normpath path) in
    params <- _getparams ;;
    setitem params "op" (VStr "GETCONTENTSUMMARY") ;;
    json <- _root_get (Some path) (Some params) ;;
    cs <- lift (getitem json "ContentSummary") ;;
    lift (WebHdfsContentSummary cs).

  (** This version of stats returns [None] if the entry is not found. *)
Definition _stats (path : string) : M (option Stat) :=
    let path := encode_fs_path (Hdfs_normpath path) in
    params <- _getparams ;;
    setitem params "op" (VStr "GETFILESTATUS") ;;
    try_except
      (json <- _root_get (Some path) (Some params) ;;
       fstatus <- lift (getitem json "FileStatus") ;;
       st <- lift (WebHdfsStat fstatus path) ;;
       ret (Some st))
      (fun e =>
         match e with
         | WebHdfsExc ex =>
             Some (if decide (server_exc ex = Some "FileNotFoundException")
                   then ret None
                   else raise (WebHdfsExc ex))
         | _ => None
         end).

Definition stats (path : string) : M Stat :=
    res <- _stats path ;;
    match res with
    | Some st => ret st
    | None => raise (IOError (Some errno.ENOENT) ("File " +:+ path +:+ " not found"))
    end.

Definition exists_ (path : string) : M bool :=
    res <- _stats path ;;
    ret (match res with Some _ => true | None => false end).

Definition isdir (path : string) : M bool :=
    sb <- _stats path ;;
    match sb with
    | None => ret false
    | Some sb => ret (isDir sb)
    end.

Definition isfile (path : string) : M bool :=
    sb <- _stats path ;;
    match sb with
    | None => ret false
    | Some sb => ret (negb (isDir sb))
    end.

Definition _delete (path : string) (recursive : bool) : M unit :=
    let path := encode_fs_path (Hdfs_normpath path) in
    params <- _getparams ;;
    setitem params "op" (VStr "DELETE") ;;
    setitem params "recursive" (VStr (if recursive then "true" else "false")) ;;
    result <- _root_delete (Some path) (Some params) ;;
    b <- lift (getitem result "boolean") ;;
    if negb (truthy b)
    then raise (IOError None ("Delete failed: " +:+ path))
    else ret tt.

Definition remove (path : string) : M unit := _delete path false.
Definition rmdir (path : string) : M unit := _delete path false.
Definition rmtree (path : string) : M unit := _delete path true.

Definition mkdir (path : string) (mode : option PyVal) : M unit :=
    let path := encode_fs_path (Hdfs_normpath path) in
    params <- _getparams ;;
    setitem params "op" (VStr "MKDIRS") ;;
    match mode with
    | Some m => p <- lift (safe_octal m) ;; setitem params "permission" (VStr p)
    | None => ret tt
    end ;;
    success <- _root_put (Some path) (Some params) ;;
    if negb (truthy success)
    then raise (IOError None ("Mkdir failed: " +:+ path))
    else ret tt.

Definition rename (old new : string) : M unit :=
    let old := encode_fs_path (Hdfs_normpath old) in
    let new := encode_fs_path (Hdfs_normpath new) in
    params <- _getparams ;;
    setitem params "op" (VStr "RENAME") ;;
    setitem params "destination" (VStr new) ;;
    result <- _root_put (Some old) (Some params) ;;
    b <- lift (getitem result "boolean") ;;
    if negb (truthy b)
    then raise (IOError None ("Rename failed: " +:+ old +:+ " -> " +:+ new))
    else ret tt.

Definition chown (path : string) (user group : option PyVal) : M unit :=
    let path := encode_fs_path (Hdfs_normpath path) in
    params <- _getparams ;;
    setitem params "op" (VStr "SETOWNER") ;;
    match user with
    | Some u => setitem params "owner" u
    | None => ret tt
    end ;;
    match group with
    | Some g => setitem params "group" g
    | None => ret tt
    end ;;
    _root_put (Some path) (Some params) ;;
    ret tt.

Definition chmod (path : string) (mode : PyVal) : M unit :=
    let path := encode_fs_path (Hdfs_normpath path) in
    params <- _getparams ;;
    setitem params "op" (VStr "SETPERMISSION") ;;
    p <- lift (safe_octal mode) ;;
    setitem params "permission" (VStr p) ;;
    _root_put (Some path) (Some params) ;;
    ret tt.

Definition get_home_dir : M json :=
    params <- _getparams ;;
    setitem params "op" (VStr "GETHOMEDIRECTORY") ;;
    res <- _root_get None (Some params) ;;
    lift (getitem res "Path").

Definition read (path : string) (offset length : Z) (bufsize : option PyVal) : M json :=
    let path := encode_fs_path (Hdfs_normpath path) in
    params <- _getparams ;;
    setitem params "op" (VStr "OPEN") ;;
    setitem params "offset" (VLong offset) ;;
    setitem params "length" (VLong length) ;;
    match bufsize with
    | Some b => setitem params "bufsize" b
    | None => ret tt
    end ;;
    _root_get_raw (Some path) (Some params).

(** The attributes [_get_redirect_url] reads from the wrapped error. *)
Definition http_error_code (e : ParentEx) : exn + Z :=
  match e with
  | HTTPError code _ => inr code
  | URLError _ => inl (AttributeError "'URLError' object has no attribute 'code'")
  end.

Definition http_error_getheader_location (e : ParentEx) : exn + option string :=
  match e with
  | HTTPError _ location => inr location
  | URLError _ => inl (AttributeError "'URLError' object has no attribute 'headers'")
  end.

Definition redirect_codes : list Z := [301; 302; 303; 307].

(** Retrieve the redirect url from an exception object. *)
Definition _get_redirect_url (webhdfs_ex : WebHdfsException) : M (option string) :=
  try_except
    (match get_parent_ex webhdfs_ex with
     | None => raise (WebHdfsExc webhdfs_ex)
     | Some http_error =>
         code <- lift (http_error_code http_error) ;;
         if negb (existsb (Z.eqb code) redirect_codes)
         then raise (WebHdfsExc webhdfs_ex)
         else lift (http_error_getheader_location http_error)
     end)
    (fun _ => Some (raise (WebHdfsExc webhdfs_ex))).

(** [self._make_client(next_url)] wrapped in a [Resource] and invoked
    with [data] and [json_decode=False] only. *)
Definition redirected_invoke (next_url method : string) (data : option string) : M json :=
  Resource_invoke next_url method None None data false.

(** Issue a request, expect a redirect, then submit the data to the
    redirected location. *)
Definition _invoke_with_redirect (method path : string) (params : option nat)
    (data : option string) : M json :=
  next_url <- try_except
                (_root_invoke method (Some path) params ;; ret None)
                (fun e =>
                   match e with
                   | WebHdfsExc ex => Some (_get_redirect_url ex)
                   | _ => None
                   end) ;;
  match next_url with
  | None =>
      raise (WebHdfsExc (WebHdfsException_of_message
               ("Failed to create '" +:+ path +:+ "'. HDFS did not return a redirect")))
  | Some next_url => redirected_invoke next_url method data
  end.

Definition create (path : string) (overwrite : bool) (blocksize replication : option Z)
    (permission : option PyVal) (data : option string) : M unit :=
  let path := encode_fs_path (Hdfs_normpath path) in
  params <- _getparams ;;
  setitem params "op" (VStr "CREATE") ;;
  setitem params "overwrite" (VStr (if overwrite then "true" else "false")) ;;
  match blocksize with
  | Some b => setitem params "blocksize" (VLong b)
  | None => ret tt
  end ;;
  match replication with
  | Some r => setitem params "replication" (VInt r)
  | None => ret tt
  end ;;
  match permission with
  | Some m => p <- lift (safe_octal m) ;; setitem params "permission" (VStr p)
  | None => ret tt
  end ;;
  _invoke_with_redirect "PUT" path (Some params) data ;;
  ret tt.

Definition append (path : string) (data : option string) : M unit :=
  let path := encode_fs_path (Hdfs_normpath path) in
  params <- _getparams ;;
  setitem params "op" (VStr "APPEND") ;;
  _invoke_with_redirect "POST" path (Some params) data ;;
  ret tt.

Definition get_delegation_token (renewer : PyVal) : M json :=
  params <- _getparams ;;
  setitem params "op" (VStr "GETDELEGATIONTOKEN") ;;
  setitem params "renewer" renewer ;;
  res <- _root_get None (Some params) ;;
  token <- lift (getitem res "Token") ;;
  lift (getitem token "urlString").

(** ** class [File] *)

Record File := mkFile {
  _path : string;
  _pos : Z;
  _mode : string;
  _stat : option Stat
}.

(** [File.__init__(fs, path, mode)]. *)
Definition File_init (path mode : string) : M File :=
  st <- try_except
          (st <- stats path ;;
           if isDir st
           then raise (IOError (Some errno.EISDIR) ("Is a directory: '" +:+ path +:+ "'"))
           else ret (Some st))
          (fun e =>
             match e with
             | IOError en msg =>
                 Some (if bool_decide (en = Some errno.ENOENT) && String.eqb mode "r"
                       then raise (IOError en msg)
                       else ret None)
             | _ => None
             end) ;;
  ret {| _path := normpath path; _pos := 0; _mode := mode; _stat := st |}.

(** [open(path, mode)]. *)
Definition open (path mode : string) : M File := File_init path mode.

Definition File_tell (f : File) : Z := _pos f.

Definition File_append (f : File) (data : option string) : M unit :=
  if negb (existsb (Ascii.eqb "w"%char) (list_ascii_of_string (_mode f)))
  then raise (IOError (Some errno.EINVAL) "File not open for writing")
  else
    match _stat f with
    | None => create (_path f) false None None None data
    | Some _ => append (_path f) data
    end.

Definition File_write (f : File) (data : option string) : M unit :=
  File_append f data.

Definition File_close (f : File) : M unit := ret tt.

End Facade.

(** [WebHdfs.__init__]: the constructing thread gets the default user. *)
Definition WebHdfs_init (url hdfs_superuser : string) (security_enabled : bool)
    (temp_dir : string) (tid : nat) : M WebHdfs :=
  setuser tid DEFAULT_USER ;;
  ret {| _url := url; _superuser := hdfs_superuser;
         _security_enabled := security_enabled; _temp_dir := temp_dir |}.

(** ** Calls of the facade, by name *)

Section Calls.
Context `{Collaborators}.

(** A create or append call with its arguments. *)
Inductive WriteCall :=
| Create (path : string) (overwrite : bool) (blocksize replication : option Z)
    (permission : option PyVal) (data : option string)
| Append (path : string) (data : option string).

Definition run_write (self : WebHdfs) (tid : nat) (c : WriteCall) : M unit :=
  match c with
  | Create path overwrite blocksize replication permission data =>
      create self tid path overwrite blocksize replication permission data
  | Append path data => append self tid path data
  end.

Definition write_method (c : WriteCall) : string :=
  match c with Create _ _ _ _ _ _ => "PUT" | Append _ _ => "POST" end.

Definition write_data (c : WriteCall) : option string :=
  match c with Create _ _ _ _ _ data => data | Append _ data => data end.

Definition write_path (c : WriteCall) : string :=
  match c with
  | Create path _ _ _ _ _ => encode_fs_path (Hdfs_normpath path)
  | Append path _ => encode_fs_path (Hdfs_normpath path)
  end.

(** Every method of the facade that builds a parameter dict. *)
Inductive Call :=
| CListdirStats (path : string) (glob : option PyVal)
| CGetContentSummary (path : string)
| C_stats (path : string)
| CStats (path : string)
| CExists (path : string)
| CIsdir (path : string)
| CIsfile (path : string)
| C_delete (path : string) (recursive : bool)
| CRemove (path : string)
| CRmdir (path : string)
| CRmtree (path : string)
| CMkdir (path : string) (mode : option PyVal)
| CRename (old new : string)
| CChown (path : string) (user group : option PyVal)
| CChmod (path : string) (mode : PyVal)
| CGetHomeDir
| CRead (path : string) (offset length : Z) (bufsize : option PyVal)
| CWrite (c : WriteCall)
| CGetDelegationToken (renewer : PyVal).

Definition discard {A} (m : M A) : M unit := m ;; ret tt.

Definition run_call (self : WebHdfs) (tid : nat) (c : Call) : M unit :=
  match c with
  | CListdirStats path glob => discard (listdir_stats self tid path glob)
  | CGetContentSummary path => discard (get_content_summary self tid path)
  | C_stats path => discard (_stats self tid path)
  | CStats path => discard (stats self tid path)
  | CExists path => discard (exists_ self tid path)
  | CIsdir path => discard (isdir self tid path)
  | CIsfile path => discard (isfile self tid path)
  | C_delete path recursive => _delete self tid path recursive
  | CRemove path => remove self tid path
  | CRmdir path => rmdir self tid path
  | CRmtree path => rmtree self tid path
  | CMkdir path mode => mkdir self tid path mode
  | CRename old new => rename self tid old new
  | CChown path user group => chown self tid path user group
  | CChmod path mode => chmod self tid path mode
  | CGetHomeDir => discard (get_home_dir self tid)
  | CRead path offset length bufsize => discard (read self tid path offset length bufsize)
  | CWrite c => discard (run_write self tid c)
  | CGetDelegationToken renewer => discard (get_delegation_token self tid renewer)
  end.

(** The operation code each method puts under [op]. *)
Definition op_code (c : Call) : string :=
  match c with
  | CListdirStats _ _ => "LISTSTATUS"
  | CGetContentSummary _ => "GETCONTENTSUMMARY"
  | C_stats _ | CStats _ | CExists _ | CIsdir _ | CIsfile _ => "GETFILESTATUS"
  | C_delete _ _ | CRemove _ | CRmdir _ | CRmtree _ => "DELETE"
  | CMkdir _ _ => "MKDIRS"
  | CRename _ _ => "RENAME"
  | CChown _ _ _ => "SETOWNER"
  | CChmod _ _ => "SETPERMISSION"
  | CGetHomeDir => "GETHOMEDIRECTORY"
  | CRead _ _ _ _ => "OPEN"
  | CWrite (Create _ _ _ _ _ _) => "CREATE"
  | CWrite (Append _ _) => "APPEND"
  | CGetDelegationToken _ => "GETDELEGATIONTOKEN"
  end.

(** A failure of the first leg that has the redirect shape: an
    [HTTPError] with one of the recognised codes. *)
Definition is_redirect (e : exn) : bool :=
  match e with
  | WebHdfsExc ex =>
      match parent_ex ex with
      | Some (HTTPError code _) => existsb (Z.eqb code) redirect_codes
      | _ => false
      end
  | _ => false
  end.

(** The failure a delete or rename call raises on a false outcome. *)
Definition boolean_failure (c : Call) : option exn :=
  match c with
  | C_delete path _ | CRemove path | CRmdir path | CRmtree path =>
      Some (IOError None ("Delete failed: " +:+ encode_fs_path (Hdfs_normpath path)))
  | CRename old new =>
      Some (IOError None ("Rename failed: " +:+ encode_fs_path (Hdfs_normpath old)
                          +:+ " -> " +:+ encode_fs_path (Hdfs_normpath new)))
  | _ => None
  end.

(** The loud and the boolean lookups are the quiet one, relabelled. *)
Definition stats_of (path : string) (r0 : exn + option Stat) : exn + Stat :=
  match r0 with
  | inr (Some st) => inr st
  | inr None => inl (IOError (Some errno.ENOENT) ("File " +:+ path +:+ " not found"))
  | inl e => inl e
  end.

Definition exists_of (r0 : exn + option Stat) : exn + bool :=
  match r0 with
  | inr (Some _) => inr true
  | inr None => inr false
  | inl e => inl e
  end.

Definition isdir_of (r0 : exn + option Stat) : exn + bool :=
  match r0 with
  | inr (Some st) => inr (isDir st)
  | inr None => inr false
  | inl e => inl e
  end.

Definition isfile_of (r0 : exn + option Stat) : exn + bool :=
  match r0 with
  | inr (Some st) => inr (negb (isDir st))
  | inr None => inr false
  | inl e => inl e
  end.

(** The [except WebHdfsException] clause of [_stats], on a raised [e]. *)
Definition suppress_not_found (e : exn) : exn + option Stat :=
  match e with
  | WebHdfsExc ex =>
      if decide (server_exc ex = Some "FileNotFoundException")
      then inr None else inl (WebHdfsExc ex)
  | _ => inl e
  end.

End Calls.

(** What the caller of create and append sees of the second leg: its
    exception, or [None] in place of its value. *)
Definition dropped (r : exn + json) : exn + unit :=
  match r with
  | inr _ => inr tt
  | inl e => inl e
  end.

(** ** The request of each method *)

Section Wire.
Context `{Collaborators}.

(** The verb each method hands to [self._root]. *)
Definition call_method (c : Call) : string :=
  match c with
  | C_delete _ _ | CRemove _ | CRmdir _ | CRmtree _ => "DELETE"
  | CMkdir _ _ | CRename _ _ | CChown _ _ _ | CChmod _ _ => "PUT"
  | CWrite w => write_method w
  | _ => "GET"
  end.

(** The relative path each method passes: the encoded normal form of its
    path argument, or none for the two methods that take no path. *)
Definition call_relpath (c : Call) : option string :=
  match c with
  | CListdirStats path _ | CGetContentSummary path | C_stats path | CStats path
  | CExists path | CIsdir path | CIsfile path | C_delete path _ | CRemove path
  | CRmdir path | CRmtree path | CMkdir path _ | CChown path _ _ | CChmod path _
  | CRead path _ _ _ => Some (encode_fs_path (Hdfs_normpath path))
  | CRename old _ => Some (encode_fs_path (Hdfs_normpath old))
  | CWrite w => Some (write_path w)
  | CGetHomeDir | CGetDelegationToken _ => None
  end.

(** Only [read] asks for the undecoded body. *)
Definition call_decodes (c : Call) : bool :=
  match c with CRead _ _ _ _ => false | _ => true end.

Definition is_write (c : Call) : bool :=
  match c with CWrite _ => true | _ => false end.

(** The methods that go through the quiet lookup [_stats]. *)
Definition is_lookup (c : Call) : bool :=
  match c with
  | C_stats _ | CStats _ | CExists _ | CIsdir _ | CIsfile _ => true
  | _ => false
  end.

(** A permission argument as it is put into the dict. *)
Definition octal_param (mode : PyVal) : option PyVal :=
  match safe_octal mode with
  | inr p => Some (VStr p)
  | inl _ => None
  end.

(** The fields each method adds to its dict besides [user.name] and [op]:
    the key, and the value or [None] when the method leaves the key out. *)
Definition call_fields (c : Call) : list (string * option PyVal) :=
  match c with
  | CListdirStats _ glob => [("filter", glob)]
  | C_delete _ recursive =>
      [("recursive", Some (VStr (if recursive then "true" else "false")))]
  | CRemove _ | CRmdir _ => [("recursive", Some (VStr "false"))]
  | CRmtree _ => [("recursive", Some (VStr "true"))]
  | CMkdir _ mode => [("permission", mode ≫= octal_param)]
  | CRename _ new => [("destination", Some (VStr (encode_fs_path (Hdfs_normpath new))))]
  | CChown _ user group => [("owner", user); ("group", group)]
  | CChmod _ mode => [("permission", octal_param mode)]
  | CRead _ offset length bufsize =>
      [("offset", Some (VLong offset)); ("length", Some (VLong length));
       ("bufsize", bufsize)]
  | CWrite (Create _ overwrite blocksize replication permission _) =>
      [("overwrite", Some (VStr (if overwrite then "true" else "false")));
       ("blocksize", VLong <$> blocksize);
       ("replication", VInt <$> replication);
       ("permission", permission ≫= octal_param)]
  | CGetDelegationToken renewer => [("renewer", Some renewer)]
  | _ => []
  end.

(** The request a method sends to the namenode with the dict [d]. *)
Definition call_request (self : WebHdfs) (c : Call) (d : dict) : Request :=
  {| rq_url := _url self; rq_method := call_method c;
     rq_relpath := call_relpath c; rq_params := Some d;
     rq_data := None; rq_json_decode := call_decodes c |}.

End Wire.

(** ** class [File], the methods that move the handle *)

(** [len(data)] on a body. *)
Definition py_len (v : json) : exn + Z :=
  match v with
  | JStr s => inr (Z.of_nat (String.length s))
  | JArr l => inr (Z.of_nat (List.length l))
  | JObj kvs => inr (Z.of_nat (List.length kvs))
  | _ => inl (TypeError "object has no len()")
  end.

(** [SEEK_SET], [SEEK_CUR], [SEEK_END] as imported from [hadoop.fs]: the
    values of [os]. *)
Definition SEEK_SET : Z := 0.
Definition SEEK_CUR : Z := 1.
Definition SEEK_END : Z := 2.

Section FileMethods.
Context `{Collaborators}.
(** The [length] attribute of a [WebHdfsStat]. *)
Variable stat_length : Stat -> Z.
Variable self : WebHdfs.
Variable tid : nat.

(** A method of a [File] runs on the handle and the world; the handle it
    leaves behind is returned also when it raises. *)
Definition FM (A : Type) : Type := File -> World -> (exn + A) * File * World.

Definition with_pos (f : File) (pos : Z) : File :=
  {| _path := _path f; _pos := pos; _mode := _mode f; _stat := _stat f |}.

Definition with_stat (f : File) (st : option Stat) : File :=
  {| _path := _path f; _pos := _pos f; _mode := _mode f; _stat := st |}.

Definition File_stat : FM Stat :=
  fun f w =>
    match stats self tid (_path f) w with
    | (inr st, w') => (inr st, with_stat f (Some st), w')
    | (inl e, w') => (inl e, f, w')
    end.

(** Set the file pointer to the given spot. *)
Definition File_seek (offset whence : Z) : FM unit :=
  fun f w =>
    if whence =? SEEK_SET then (inr tt, with_pos f offset, w)
    else if whence =? SEEK_CUR then (inr tt, with_pos f (_pos f + offset), w)
    else if whence =? SEEK_END then
      match File_stat f w with
      | (inl e, f1, w1) => (inl e, f1, w1)
      | (inr _, f1, w1) =>
          match stats self tid (_path f1) w1 with
          | (inr st, w2) => (inr tt, with_pos f1 (stat_length st + offset), w2)
          | (inl e, w2) => (inl e, f1, w2)
          end
      end
    else (inl (IOError (Some errno.EINVAL) "Invalid argument to seek for whence"), f, w).

Definition File_read (length : Z) : FM json :=
  fun f w =>
    match read self tid (_path f) (_pos f) length None w with
    | (inr data, w') =>
        match py_len data with
        | inr n => (inr data, with_pos f (_pos f + n), w')
        | inl e => (inl e, f, w')
        end
    | (inl e, w') => (inl e, f, w')
    end.

End FileMethods.

(** ** Construction from the configuration *)

(** The values [hdfs_config] answers to [.get()]. *)
Record HdfsConfig := mkHdfsConfig {
  WEBHDFS_URL : option string;
  NN_HOST : string;
  NN_HTTP_PORT : Z;
  SECURITY_ENABLED : bool;
  TEMP_DIR : string
}.

Definition _get_service_url (hdfs_config : HdfsConfig) : string :=
  match WEBHDFS_URL hdfs_config with
  | Some override =>
      if negb (String.eqb override "") then override
      else "http://" +:+ NN_HOST hdfs_config +:+ ":"
           +:+ str_int (NN_HTTP_PORT hdfs_config) +:+ "/webhdfs/v1"
  | None =>
      "http://" +:+ NN_HOST hdfs_config +:+ ":"
      +:+ str_int (NN_HTTP_PORT hdfs_config) +:+ "/webhdfs/v1"
  end.

Definition from_config (hdfs_config : HdfsConfig) (tid : nat) : M WebHdfs :=
  WebHdfs_init (_get_service_url hdfs_config) "hdfs"
    (SECURITY_ENABLED hdfs_config) (TEMP_DIR hdfs_config) tid.

(** ** A concrete setting *)

Module Scenario.

(** Modelled from the spec: [webhdfs_types.WebHdfsStat] is not among the
    sources.  An entry keeps its path and its type (file or directory,
    spec 3), read from the [type] and [pathSuffix] fields of the body. *)
Definition sample_stat (file_status : json) (parent_path : string) : exn + (string * bool) :=
  match getitem file_status "pathSuffix", getitem file_status "type" with
  | inr (JStr suffix), inr (JStr ty) =>
      inr (if String.eqb suffix "" then parent_path else parent_path +:+ "/" +:+ suffix,
           String.eqb ty "DIRECTORY")
  | inl e, _ => inl e
  | _, inl e => inl e
  | _, _ => inl (TypeError "unsupported operand")
  end.

(** Collaborators for paths that are already normal and need no escape. *)
Definition sample : Collaborators :=
  {| Stat := string * bool;
     WebHdfsStat := sample_stat;
     isDir := snd;
     ContentSummary := json;
     WebHdfsContentSummary := inr;
     Hdfs_normpath := fun p => p;
     encode_fs_path := fun p => p;
     normpath := fun p => p |}.

(** A server that answers the i-th request it sees with the i-th entry of
    a script, and with a server error past its end. *)
Definition scripted (answers : list (exn + json)) : list Request -> Request -> exn + json :=
  fun history _ => nth (length history) answers (inl (OtherError "end of script")).

Definition world_of (answers : list (exn + json)) : World :=
  {| srv := scripted answers;
     users := {[ 0%nat := DEFAULT_USER ]};
     heap := [];
     trace := [] |}.

Definition fs : WebHdfs :=
  {| _url := "http://nn:50070/webhdfs/v1"; _superuser := "hdfs";
     _security_enabled := false; _temp_dir := "/tmp" |}.

Definition datanode_url : string :=
  "http://dn:50075/webhdfs/v1/a/b.txt?op=CREATE&user.name=hue_webui&overwrite=false".

Definition redirect_307 : exn + json :=
  inl (WebHdfsExc {| message := "HTTP Error 307: Temporary Redirect";
                     server_exc := None;
                     parent_ex := Some (HTTPError 307 (Some datanode_url)) |}).

Definition access_denied : exn + json :=
  inl (WebHdfsExc {| message := "AccessControlException: Permission denied";
                     server_exc := Some "AccessControlException";
                     parent_ex := Some (HTTPError 403 None) |}).

Definition file_not_found : exn + json :=
  inl (WebHdfsExc {| message := "FileNotFoundException: File does not exist";
                     server_exc := Some "FileNotFoundException";
                     parent_ex := Some (HTTPError 404 None) |}).

Definition boolean_body (b : bool) : exn + json :=
  inr (JObj [("boolean", JBool b)]).

Definition status_body (ty : string) : exn + json :=
  inr (JObj [("FileStatus", JObj [("pathSuffix", JStr ""); ("type", JStr ty)])]).

(** [create("/a/b.txt", data="hi")] against a namenode that redirects. *)
Definition create_call : WriteCall :=
  Create "/a/b.txt" false None None None (Some "hi").

Definition create_world : World := world_of [redirect_307; inr (JStr "")].

Definition first_leg : Request :=
  {| rq_url := "http://nn:50070/webhdfs/v1"; rq_method := "PUT";
     rq_relpath := Some "/a/b.txt";
     rq_params := Some {[ "user.name" := VStr "hue_webui"; "op" := VStr "CREATE";
                          "overwrite" := VStr "false" ]};
     rq_data := None; rq_json_decode := true |}.

Definition second_leg : Request :=
  {| rq_url := datanode_url; rq_method := "PUT"; rq_relpath := None;
     rq_params := None; rq_data := Some "hi"; rq_json_decode := false |}.

(** The request of a stat, delete or rename of the default user. *)
Definition request_of (method path : string) (params : dict) : Request :=
  {| rq_url := "http://nn:50070/webhdfs/v1"; rq_method := method;
     rq_relpath := Some path; rq_params := Some params;
     rq_data := None; rq_json_decode := true |}.

Definition stat_request (path : string) : Request :=
  request_of "GET" path
    {[ "user.name" := VStr "hue_webui"; "op" := VStr "GETFILESTATUS" ]}.

Definition rename_request : Request :=
  request_of "PUT" "/a"
    {[ "user.name" := VStr "hue_webui"; "op" := VStr "RENAME";
       "destination" := VStr "/b" ]}.

End Scenario.

(** A second setting, with entries that carry a length. *)
Module Sized.

(** Modelled from the spec: [webhdfs_types.WebHdfsStat] is not among the
    sources.  An entry keeps its type and its length (spec 3), read from
    the [type] and [length] fields of the body. *)
Definition sized_stat (file_status : json) (parent_path : string) : exn + (bool * Z) :=
  match getitem file_status "type", getitem file_status "length" with
  | inr (JStr ty), inr (JNum n) => inr (String.eqb ty "DIRECTORY", n)
  | inl e, _ => inl e
  | _, inl e => inl e
  | _, _ => inl (TypeError "unsupported operand")
  end.

Definition sized : Collaborators :=
  {| Stat := bool * Z;
     WebHdfsStat := sized_stat;
     isDir := fst;
     ContentSummary := json;
     WebHdfsContentSummary := inr;
     Hdfs_normpath := fun p => p;
     encode_fs_path := fun p => p;
     normpath := fun p => p |}.

Definition sized_length : bool * Z -> Z := snd.

Definition file_body (n : Z) : exn + json :=
  inr (JObj [("FileStatus", JObj [("type", JStr "FILE"); ("length", JNum n)])]).

Definition handle (mode : string) (pos : Z) (st : option (bool * Z)) : File (H := sized) :=
  @mkFile sized "/a" pos mode st.

Definition config : HdfsConfig :=
  {| WEBHDFS_URL := Some ""; NN_HOST := "nn"; NN_HTTP_PORT := 50070;
     SECURITY_ENABLED := false; TEMP_DIR := "/tmp" |}.

End Sized.

(** * Properties *)

(** ** Permission normalisation *)

Example safe_octal_0 : safe_octal (VInt 0) = inr "0".
Proof. reflexivity. Qed.
Example safe_octal_neg8 : safe_octal (VInt (-8)) = inr "-010".
Proof. reflexivity. Qed.
Example safe_octal_long : safe_octal (VLong 493) = inr "0755L".
Proof. reflexivity. Qed.
Example octal_value_755 : octal_value "755" = Some 493 /\ octal_value "0755" = Some 493.
Proof. split; reflexivity. Qed.
Example create_scenario :
  run_write (H := Scenario.sample) Scenario.fs 0
    (Create "/a/b.txt" false None None None (Some "hi"))
    (Scenario.world_of [Scenario.redirect_307; inr (JStr "")])
  = (inr tt,
     {| srv := Scenario.scripted [Scenario.redirect_307; inr (JStr "")];
        users := {[ 0%nat := DEFAULT_USER ]};
        heap := [ {[ "user.name" := VStr "hue_webui"; "op" := VStr "CREATE";
                     "overwrite" := VStr "false" ]} ];
        trace := [ {| rq_url := "http://nn:50070/webhdfs/v1"; rq_method := "PUT";
                      rq_relpath := Some "/a/b.txt";
                      rq_params := Some {[ "user.name" := VStr "hue_webui"; "op" := VStr "CREATE";
                                           "overwrite" := VStr "false" ]};
                      rq_data := None; rq_json_decode := true |};
                   {| rq_url := Scenario.datanode_url; rq_method := "PUT";
                      rq_relpath := None; rq_params := None;
                      rq_data := Some "hi"; rq_json_decode := false |} ] |}).
Proof. vm_compute. reflexivity. Qed.

Section Octal.

Lemma octal_digit_value (d : Z) :
  0 <= d < 8 -> Z.of_nat (nat_of_ascii (octal_digit d)) - 48 = d.
Proof.
  intros Hd. unfold octal_digit.
  rewrite nat_ascii_embedding by lia. lia.
Qed.

(** Reading back the digits written in front of [acc] continues from the
    number they add to the accumulator. *)
Lemma octal_value_digits_octal_digits (fuel : nat) :
  forall n acc a, 0 <= n < 8 ^ Z.of_nat fuel ->
  exists k : nat,
    octal_value_digits (octal_digits fuel n acc) a
    = octal_value_digits acc (a * 8 ^ Z.of_nat k + n).
Proof.
  induction fuel as [|fuel IH]; intros n acc a Hn.
  - exists 0%nat. simpl in *. f_equal. lia.
  - cbn [octal_digits]. destruct (Z.leb_spec n 0) as [Hle|Hpos].
    + exists 0%nat. f_equal. simpl. lia.
    + assert (Hdiv : 0 <= n / 8 < 8 ^ Z.of_nat fuel).
      { split; [apply Z.div_pos; lia|].
        apply Z.div_lt_upper_bound; [lia|].
        replace (Z.of_nat (S fuel)) with (Z.succ (Z.of_nat fuel)) in Hn by lia.
        rewrite Z.pow_succ_r in Hn by lia. lia. }
      destruct (IH (n / 8) (String (octal_digit (n mod 8)) acc) a Hdiv) as [k Hk].
      exists (S k). rewrite Hk. cbn [octal_value_digits].
      pose proof (Z.mod_pos_bound n 8 ltac:(lia)) as Hm.
      rewrite octal_digit_value by lia.
      destruct (Z.leb_spec 0 (n mod 8)); [|lia].
      destruct (Z.ltb_spec (n mod 8) 8); [|lia].
      cbn [andb]. f_equal.
      replace (Z.of_nat (S k)) with (Z.succ (Z.of_nat k)) by lia.
      rewrite Z.pow_succ_r by lia.
      pose proof (Z.div_mod n 8 ltac:(lia)). lia.
Qed.

Lemma octal_fuel_enough (a : Z) :
  0 < a -> a < 8 ^ Z.of_nat (S (Z.to_nat (Z.log2 a))).
Proof.
  intros Ha.
  pose proof (Z.log2_nonneg a) as Hl.
  destruct (Z.log2_spec a Ha) as [_ Hlt].
  replace (Z.of_nat (S (Z.to_nat (Z.log2 a)))) with (Z.succ (Z.log2 a)) by lia.
  eapply Z.lt_le_trans; [exact Hlt|].
  apply Z.pow_le_mono_l. lia.
Qed.

Lemma octal_value_oct_int (n : Z) : octal_value (oct_int n) = Some n.
Proof.
  unfold oct_int. destruct (Z.eqb_spec n 0) as [->|Hn]; [reflexivity|].
  assert (Ha : 0 < Z.abs n) by lia.
  destruct (octal_value_digits_octal_digits
              (S (Z.to_nat (Z.log2 (Z.abs n)))) (Z.abs n) "" 0) as [k Hk].
  { split; [lia | apply octal_fuel_enough; lia]. }
  set (ds := octal_digits _ _ _) in *.
  destruct (Z.ltb_spec n 0).
  - change (Z.opp <$> octal_value_digits ds 0 = Some n).
    rewrite Hk. cbn. f_equal. lia.
  - change (octal_value_digits ds 0 = Some n).
    rewrite Hk. cbn. f_equal. lia.
Qed.

End Octal.

(** C8 (as stated, refuted): the numeric 0755 and the strings "755" and
    "0755" are not all sent as one and the same string. *)
Lemma safe_octal_forms_differ :
  ~ (safe_octal (VInt 493) = safe_octal (VStr "755")
     /\ safe_octal (VStr "755") = safe_octal (VStr "0755")).
Proof. intros [H _]. vm_compute in H. discriminate H. Qed.

(** C8 (amended): the numeric 0755 and the string "0755" are both sent as
    "0755" while the string "755" is sent as "755"; a string is passed
    through unchanged, an int is written as its Python 2 octal numeral,
    which denotes the number it came from. *)
Theorem safe_octal_normal_forms :
  safe_octal (VInt 493) = inr "0755"
  /\ safe_octal (VStr "0755") = inr "0755"
  /\ safe_octal (VStr "755") = inr "755"
  /\ (forall s, safe_octal (VStr s) = inr s)
  /\ (forall n, exists s, safe_octal (VInt n) = inr s /\ octal_value s = Some n).
Proof.
  repeat split.
  intros n. exists (oct_int n). split; [reflexivity|].
  apply octal_value_oct_int.
Qed.

Lemma safe_octal_total (v : PyVal) : exists s, safe_octal v = inr s.
Proof. destruct v; eexists; reflexivity. Qed.

(** ** Running the facade *)

Section Store.

Lemma alter_snoc {A} (f : A -> A) (l : list A) (d : A) :
  alter f (length l) (l ++ [d])%list = (l ++ [f d])%list.
Proof.
  induction l as [|x l IH]; [reflexivity|].
  cbn. f_equal. exact IH.
Qed.

Lemma lookup_snoc {A} (l : list A) (d : A) :
  (l ++ [d])%list !! length l = Some d.
Proof. induction l as [|x l IH]; [reflexivity|exact IH]. Qed.

Lemma snoc_cons_inv {A} (l : list A) (x y : A) (r : list A) :
  (l ++ [x])%list = (l ++ y :: r)%list -> y = x /\ r = [].
Proof. intros Heq. apply app_inv_head in Heq. by injection Heq as -> ->. Qed.

Lemma self_app_cons {A} (l : list A) (y : A) (r : list A) :
  l = (l ++ y :: r)%list -> False.
Proof.
  intros Heq. apply (f_equal length) in Heq.
  rewrite length_app in Heq. cbn in Heq. lia.
Qed.

Lemma snoc2_cons_inv {A} (l : list A) (x1 x2 y : A) (r : list A) :
  ((l ++ [x1]) ++ [x2])%list = (l ++ y :: r)%list -> y = x1 /\ r = [x2].
Proof.
  rewrite <- app_assoc. intros Heq. apply app_inv_head in Heq.
  by injection Heq as -> ->.
Qed.

End Store.

Section FacadeFacts.
Context `{Collaborators}.
Variable self : WebHdfs.
Variable tid : nat.

Ltac unfold_facade H :=
  cbv [run_call run_write discard remove rmdir rmtree _delete rename mkdir chown chmod
       listdir_stats get_content_summary _stats stats exists_ isdir isfile
       get_home_dir read create append get_delegation_token
       _invoke_with_redirect redirected_invoke _get_redirect_url get_parent_ex
       http_error_code http_error_getheader_location
       _getparams thread_local_user new_dict setitem
       _root_get _root_get_raw _root_delete _root_put _root_invoke
       Resource_get Resource_get_raw Resource_delete Resource_put Resource_invoke
       bind ret raise lift try_except] in H.

Ltac tidy_run H :=
  cbn [srv users heap trace mbind option_bind option_ret mret] in H;
  rewrite ?alter_snoc, ?lookup_snoc in H.

(** Case analysis on everything a run branches on. *)
Ltac split_run H :=
  repeat match type of H with
         | context [match ?x with _ => _ end] =>
             lazymatch x with
             | context [match _ with _ => _ end] => fail
             | _ => destruct x eqn:?; cbv beta iota in H
             end
         end.

Ltac first_request H Htr :=
  cbv beta in H; injection H as <- <-; cbn [trace] in Htr;
  first [ exfalso; exact (self_app_cons _ _ _ Htr)
        | apply snoc_cons_inv in Htr; destruct Htr as [-> ->]
        | apply snoc2_cons_inv in Htr; destruct Htr as [-> ->] ].

(** Two equations on one scrutinee: make them agree or conflict. *)
Ltac agree :=
  repeat match goal with
         | H1 : ?f ?y = ?a, H2 : ?f ?y = ?b |- _ =>
             rewrite H1 in H2;
             first [ discriminate H2 | injection H2 as ?; subst | clear H2 ]
         end.



(** What [mkdir] does with the body of its answer: any non-empty dict is
    taken for success, whatever its [boolean] says. *)
Lemma mkdir_ignores_boolean (path : string) (mode : option PyVal) (w w' : World)
    (r : exn + unit) (rq : Request) (rest : list Request) (b : bool) :
  mkdir self tid path mode w = (r, w') ->
  trace w' = (trace w ++ rq :: rest)%list ->
  srv w (trace w) rq = inr (JObj [("boolean", JBool b)]) ->
  r = inr tt.
Proof.
  intros Hrun Htr Hsrv.
  destruct mode as [m|]; [destruct (safe_octal_total m) as [p Hp]|];
    unfold_facade Hrun; rewrite ?Hp in Hrun;
    (destruct (users w !! tid) eqn:Hu); tidy_run Hrun; split_run Hrun;
    first_request Hrun Htr; agree; try reflexivity; discriminate.
Qed.

Lemma stats_via__stats (path : string) (w : World) :
  stats self tid path w
  = (stats_of path (fst (_stats self tid path w)), snd (_stats self tid path w)).
Proof.
  unfold stats, bind. destruct (_stats self tid path w) as [[e|[st|]] w']; reflexivity.
Qed.

Lemma exists_via__stats (path : string) (w : World) :
  exists_ self tid path w
  = (exists_of (fst (_stats self tid path w)), snd (_stats self tid path w)).
Proof.
  unfold exists_, bind. destruct (_stats self tid path w) as [[e|[st|]] w']; reflexivity.
Qed.

Lemma isdir_via__stats (path : string) (w : World) :
  isdir self tid path w
  = (isdir_of (fst (_stats self tid path w)), snd (_stats self tid path w)).
Proof.
  unfold isdir, bind. destruct (_stats self tid path w) as [[e|[st|]] w']; reflexivity.
Qed.

Lemma isfile_via__stats (path : string) (w : World) :
  isfile self tid path w
  = (isfile_of (fst (_stats self tid path w)), snd (_stats self tid path w)).
Proof.
  unfold isfile, bind. destruct (_stats self tid path w) as [[e|[st|]] w']; reflexivity.
Qed.

(** The quiet lookup sends at most one request, and its result is read
    off the answer to it. *)
Lemma _stats_one_request (path : string) (w w' : World) (r0 : exn + option Stat) :
  _stats self tid path w = (r0, w') ->
  trace w' = trace w \/ exists rq, trace w' = (trace w ++ [rq])%list.
Proof.
  intros Hrun. unfold_facade Hrun.
  destruct (users w !! tid) eqn:Hu; tidy_run Hrun; split_run Hrun;
    cbv beta in Hrun; injection Hrun as <- <-; cbn [trace]; eauto.
Qed.

Lemma _stats_answer (path : string) (w w' : World) (r0 : exn + option Stat)
    (rq : Request) (rest : list Request) :
  _stats self tid path w = (r0, w') ->
  trace w' = (trace w ++ rq :: rest)%list ->
  rest = []
  /\ r0 = match srv w (trace w) rq with
          | inr body =>
              match getitem body "FileStatus" with
              | inr fstatus =>
                  match WebHdfsStat fstatus (encode_fs_path (Hdfs_normpath path)) with
                  | inr st => inr (Some st)
                  | inl e => suppress_not_found e
                  end
              | inl e => suppress_not_found e
              end
          | inl e => suppress_not_found e
          end.
Proof.
  intros Hrun Htr. unfold_facade Hrun.
  destruct (users w !! tid) eqn:Hu; tidy_run Hrun; split_run Hrun;
    first_request Hrun Htr;
    repeat match goal with
           | Heq : ?x = _ |- context [match ?x with _ => _ end] => rewrite Heq
           end;
    subst; cbn [suppress_not_found];
    repeat match goal with
           | Heq : ?x = _ |- context [match ?x with _ => _ end] => rewrite Heq
           end;
    try (split; reflexivity).
Qed.

(** C5 (amended): [stats] returns the entry built from the server's
    answer when the server reports one and signals [ENOENT] when the
    server reports the entry absent; [exists] returns true exactly when
    [stats] returns an entry, returns false only when [stats] signals
    [ENOENT], and raises only what [stats] raises too, so that whenever
    [exists] returns, it returns true exactly when [stats] does not signal
    [ENOENT]; and [stats], [exists], [isdir] and [isfile] each read their
    answer off one quiet lookup, which sends at most one request. *)
Theorem stats_exists_from_one_lookup (path : string) (w w' : World)
    (r0 : exn + option Stat) :
  _stats self tid path w = (r0, w') ->
  stats self tid path w = (stats_of path r0, w')
  /\ exists_ self tid path w = (exists_of r0, w')
  /\ isdir self tid path w = (isdir_of r0, w')
  /\ isfile self tid path w = (isfile_of r0, w')
  /\ (forall b, fst (exists_ self tid path w) = inr b ->
        (b = true <->
         ~ exists msg, fst (stats self tid path w)
                       = inl (IOError (Some errno.ENOENT) msg)))
  /\ (trace w' = trace w \/ exists rq, trace w' = (trace w ++ [rq])%list)
  /\ (forall rq rest, trace w' = (trace w ++ rq :: rest)%list ->
        (forall body fstatus st,
            srv w (trace w) rq = inr body ->
            getitem body "FileStatus" = inr fstatus ->
            WebHdfsStat fstatus (encode_fs_path (Hdfs_normpath path)) = inr st ->
            fst (stats self tid path w) = inr st)
        /\ (forall ex,
               srv w (trace w) rq = inl (WebHdfsExc ex) ->
               server_exc ex = Some "FileNotFoundException" ->
               fst (stats self tid path w)
               = inl (IOError (Some errno.ENOENT) ("File " +:+ path +:+ " not found"))))
  /\ (fst (exists_ self tid path w) = inr true
      <-> exists st, fst (stats self tid path w) = inr st)
  /\ (fst (exists_ self tid path w) = inr false ->
      fst (stats self tid path w)
      = inl (IOError (Some errno.ENOENT) ("File " +:+ path +:+ " not found")))
  /\ (forall e, fst (exists_ self tid path w) = inl e ->
                fst (stats self tid path w) = inl e).
Proof.
  intros Hrun.
  rewrite stats_via__stats, exists_via__stats, isdir_via__stats, isfile_via__stats.
  rewrite Hrun. cbn [fst snd].
  do 4 (split; [reflexivity|]).
  split; [|split].
  - intros b Hb. split.
    + intros -> [msg Hmsg]. destruct r0 as [e|[st|]]; cbn in *; congruence.
    + intros Hno. destruct r0 as [e|[st|]]; cbn in *; try congruence.
      exfalso. apply Hno. eauto.
  - eapply _stats_one_request; eassumption.
  - split.
    + intros rq rest Htr.
      destruct (_stats_answer _ _ _ _ _ _ Hrun Htr) as [_ ->]. split.
      * intros body fstatus st Hsrv Hget Hst.
        rewrite Hsrv, Hget, Hst. reflexivity.
      * intros ex Hsrv Hname.
        rewrite Hsrv. cbn. rewrite decide_True by exact Hname. reflexivity.
    + destruct r0 as [e|[st|]]; cbn; repeat split;
        try discriminate; try (intros [st' Hst']; discriminate);
        eauto; intros e' [= ->]; reflexivity.
Qed.

(** C6: of the exceptions the server reports to the quiet lookup, the one
    named [FileNotFoundException], and no other, becomes the absent result
    [None]; any other is raised to the caller as it came. *)
Theorem quiet_stats_suppresses_only_file_not_found (path : string) (w w' : World)
    (r0 : exn + option Stat) (rq : Request) (rest : list Request)
    (ex : WebHdfsException) :
  _stats self tid path w = (r0, w') ->
  trace w' = (trace w ++ rq :: rest)%list ->
  srv w (trace w) rq = inl (WebHdfsExc ex) ->
  (r0 = inr None <-> server_exc ex = Some "FileNotFoundException")
  /\ (server_exc ex <> Some "FileNotFoundException" -> r0 = inl (WebHdfsExc ex)).
Proof.
  intros Hrun Htr Hsrv.
  destruct (_stats_answer _ _ _ _ _ _ Hrun Htr) as [_ ->].
  rewrite Hsrv. cbn.
  destruct (decide (server_exc ex = Some "FileNotFoundException")) as [Hy|Hn].
  - split; [tauto | contradiction].
  - split; [split; [discriminate | contradiction] | reflexivity].
Qed.

(** C7: from one and the same state, [isdir] and [isfile] are never both
    true, and both are false exactly when the quiet lookup finds no
    entry. *)
Theorem isdir_isfile_exclusive (path : string) (w : World) :
  ~ (fst (isdir self tid path w) = inr true
     /\ fst (isfile self tid path w) = inr true)
  /\ ((fst (isdir self tid path w) = inr false
       /\ fst (isfile self tid path w) = inr false)
      <-> fst (_stats self tid path w) = inr None).
Proof.
  rewrite isdir_via__stats, isfile_via__stats. cbn [fst].
  destruct (fst (_stats self tid path w)) as [e|[st|]]; cbn.
  - split; [intros [? _]; discriminate|].
    split; [intros [? _]; discriminate | discriminate].
  - destruct (isDir st); cbn; split;
      try (intros [? ?]; discriminate);
      (split; [intros [? ?]; discriminate | discriminate]).
  - split; [intros [? _]; discriminate | tauto].
Qed.

Lemma redirect_code_recognised (code : Z) :
  In code redirect_codes <-> existsb (Z.eqb code) redirect_codes = true.
Proof.
  rewrite existsb_exists. split.
  - intros Hin. exists code. split; [exact Hin | apply Z.eqb_refl].
  - intros [c [Hin Heq]]. apply Z.eqb_eq in Heq. by subst.
Qed.

(** What [_invoke_with_redirect] does, by the answer to its first leg. *)
Lemma _invoke_with_redirect_run (method path : string) (params : option nat)
    (data : option string) (w : World) :
  let rq1 := {| rq_url := _url self; rq_method := method; rq_relpath := Some path;
                rq_params := a ← params; heap w !! a;
                rq_data := None; rq_json_decode := true |} in
  let w1 := {| srv := srv w; users := users w; heap := heap w;
               trace := trace w ++ [rq1] |} in
  let no_redirect :=
    inl (WebHdfsExc (WebHdfsException_of_message
           ("Failed to create '" +:+ path +:+ "'. HDFS did not return a redirect"))) in
  _invoke_with_redirect self method path params data w
  = match srv w (trace w) rq1 with
    | inr _ => (no_redirect, w1)
    | inl e =>
        if is_redirect e then
          match e with
          | WebHdfsExc {| parent_ex := Some (HTTPError _ (Some location)) |} =>
              redirected_invoke location method data w1
          | _ => (no_redirect, w1)
          end
        else (inl e, w1)
    end.
Proof.
  cbv zeta.
  unfold _invoke_with_redirect, _get_redirect_url, _root_invoke, Resource_invoke,
    try_except, bind, ret, raise, lift, get_parent_ex, is_redirect.
  cbn [srv users heap trace].
  destruct (srv w (trace w) _) as [[[msg sx [[code [loc|]|reason]|]]| | | | |]|body];
    cbn; try reflexivity;
    repeat (destruct (code =? _)); reflexivity.
Qed.

(** The same seen from create and append, which drop the value. *)
Lemma discard_invoke_with_redirect_run (method path : string) (params : option nat)
    (data : option string) (w : World) :
  let rq1 := {| rq_url := _url self; rq_method := method; rq_relpath := Some path;
                rq_params := a ← params; heap w !! a;
                rq_data := None; rq_json_decode := true |} in
  let w1 := {| srv := srv w; users := users w; heap := heap w;
               trace := trace w ++ [rq1] |} in
  let no_redirect :=
    inl (WebHdfsExc (WebHdfsException_of_message
           ("Failed to create '" +:+ path +:+ "'. HDFS did not return a redirect"))) in
  discard (_invoke_with_redirect self method path params data) w
  = match srv w (trace w) rq1 with
    | inr _ => (no_redirect, w1)
    | inl e =>
        if is_redirect e then
          match e with
          | WebHdfsExc {| parent_ex := Some (HTTPError _ (Some location)) |} =>
              let rq2 := {| rq_url := location; rq_method := method;
                            rq_relpath := None; rq_params := None;
                            rq_data := data; rq_json_decode := false |} in
              (dropped (srv w (trace w ++ [rq1])%list rq2),
               {| srv := srv w; users := users w; heap := heap w;
                  trace := (trace w ++ [rq1]) ++ [rq2] |})
          | _ => (no_redirect, w1)
          end
        else (inl e, w1)
    end.
Proof.
  cbv zeta. unfold discard, bind. rewrite _invoke_with_redirect_run. cbv zeta.
  destruct (srv w (trace w) _) as [e|body]; [|reflexivity].
  destruct (is_redirect e); [|reflexivity].
  destruct e as [[msg sx [[code [loc|]|reason]|]]| | | | |]; try reflexivity.
  unfold redirected_invoke, Resource_invoke. cbn [srv users heap trace mbind option_bind].
  destruct (srv w _ _); reflexivity.
Qed.

(** A create or append call builds its dict, which depends on the
    arguments and the identity only, and hands over to
    [_invoke_with_redirect]. *)
Lemma run_write_prologue (c : WriteCall) (u : string) :
  exists d : dict,
    d !! "user.name" = Some (VStr u)
    /\ d !! "op" = Some (VStr (op_code (CWrite c)))
    /\ forall w, users w !! tid = Some u ->
       run_write self tid c w
       = discard (_invoke_with_redirect self (write_method c) (write_path c)
                    (Some (length (heap w))) (write_data c))
           {| srv := srv w; users := users w; heap := heap w ++ [d];
              trace := trace w |}.
Proof.
  destruct c as [path overwrite [bs|] [rep|] [perm|] data | path data];
    try destruct (safe_octal_total perm) as [p Hp];
    (eexists; split; [|split];
     [ | | intros w Hu;
           unfold run_write, create, append, _getparams, thread_local_user,
             new_dict, setitem, discard, bind, ret, lift;
           rewrite Hu; rewrite ?Hp; cbn [srv users heap trace];
           rewrite ?alter_snoc; reflexivity ];
     by simplify_map_eq).
Qed.

Lemma run_write_no_user (c : WriteCall) (w : World) :
  users w !! tid = None ->
  snd (run_write self tid c w) = w.
Proof.
  intros Hu.
  destruct c as [path overwrite bs rep perm data | path data];
    unfold run_write, create, append, _getparams, thread_local_user, bind;
    rewrite Hu; reflexivity.
Qed.

(** The first leg of a run that sent at least one request. *)
Lemma run_write_first_leg (c : WriteCall) (w w' : World) (r : exn + unit)
    (rq1 : Request) (rest : list Request) :
  run_write self tid c w = (r, w') ->
  trace w' = (trace w ++ rq1 :: rest)%list ->
  rq_method rq1 = write_method c /\ rq_data rq1 = None
  /\ (r, rest)
     = match srv w (trace w) rq1 with
       | inr _ =>
           (inl (WebHdfsExc (WebHdfsException_of_message
                   ("Failed to create '" +:+ write_path c
                    +:+ "'. HDFS did not return a redirect"))), [])
       | inl e =>
           if is_redirect e then
             match e with
             | WebHdfsExc {| parent_ex := Some (HTTPError _ (Some location)) |} =>
                 let rq2 := {| rq_url := location; rq_method := write_method c;
                               rq_relpath := None; rq_params := None;
                               rq_data := write_data c; rq_json_decode := false |} in
                 (dropped (srv w (trace w ++ [rq1])%list rq2), [rq2])
             | _ =>
                 (inl (WebHdfsExc (WebHdfsException_of_message
                         ("Failed to create '" +:+ write_path c
                          +:+ "'. HDFS did not return a redirect"))), [])
             end
           else (inl e, [])
       end.
Proof.
  intros Hrun Htr.
  destruct (users w !! tid) as [u|] eqn:Hu.
  2:{ pose proof (run_write_no_user c w Hu) as Hw. rewrite Hrun in Hw.
      cbn in Hw. subst w'. exfalso. exact (self_app_cons _ _ _ Htr). }
  destruct (run_write_prologue c u) as (d & _ & _ & Heq).
  rewrite (Heq w Hu), discard_invoke_with_redirect_run in Hrun. cbv zeta in Hrun.
  cbn [srv users heap trace mbind option_bind] in Hrun.
  set (rq := {| rq_url := _url self |}) in Hrun.
  assert (Hfirst : exists rest', trace w' = (trace w ++ rq :: rest')%list).
  { destruct (srv w (trace w) rq) as [e|body].
    - destruct (is_redirect e).
      + destruct e as [[msg sx [[code [loc|]|reason]|]]| | | | |];
          injection Hrun as <- <-; cbn [trace]; rewrite <- ?app_assoc; eauto.
      + injection Hrun as <- <-. cbn [trace]. eauto.
    - injection Hrun as <- <-. cbn [trace]. eauto. }
  destruct Hfirst as [rest' Htr']. rewrite Htr in Htr'.
  apply app_inv_head in Htr'. injection Htr' as -> ->.
  split; [reflexivity|]. split; [reflexivity|].
  destruct (srv w (trace w) rq) as [e|body].
  - destruct (is_redirect e).
    + destruct e as [[msg sx [[code [loc|]|reason]|]]| | | | |];
        injection Hrun as <- <-; cbn [trace srv] in Htr;
        rewrite <- ?app_assoc in Htr; apply app_inv_head in Htr;
        injection Htr as <-; reflexivity.
    + injection Hrun as <- <-. cbn [trace] in Htr.
      apply app_inv_head in Htr. injection Htr as <-. reflexivity.
  - injection Hrun as <- <-. cbn [trace] in Htr.
    apply app_inv_head in Htr. injection Htr as <-. reflexivity.
Qed.

(** C1: when the first request of a create or append call is answered
    with a failure that wraps an [HTTPError] with status 301, 302, 303 or
    307 and a location header, that request carried the call's method and
    no payload, exactly one more request follows, sent with the same
    method to the location as it stands, without path or parameters, with
    the payload and with decoding off, and the caller sees the outcome of
    that second request alone, never the failure of the first: the call
    returns [None] when the second request succeeds and raises its
    exception when it fails. *)
Theorem redirect_write_second_leg (c : WriteCall) (w w' : World) (r : exn + unit)
    (rq1 : Request) (rest : list Request) (ex : WebHdfsException)
    (code : Z) (location : string) :
  run_write self tid c w = (r, w') ->
  trace w' = (trace w ++ rq1 :: rest)%list ->
  srv w (trace w) rq1 = inl (WebHdfsExc ex) ->
  parent_ex ex = Some (HTTPError code (Some location)) ->
  In code [301; 302; 303; 307] ->
  let rq2 := {| rq_url := location; rq_method := write_method c;
                rq_relpath := None; rq_params := None;
                rq_data := write_data c; rq_json_decode := false |} in
  rq_method rq1 = write_method c
  /\ rq_data rq1 = None
  /\ rest = [rq2]
  /\ r = match srv w (trace w ++ [rq1])%list rq2 with
         | inr _ => inr tt
         | inl e => inl e
         end.
Proof.
  intros Hrun Htr Hsrv Hparent Hcode rq2. subst rq2.
  apply redirect_code_recognised in Hcode.
  destruct (run_write_first_leg c w w' r rq1 rest Hrun Htr) as (Hm & Hd & Hrest).
  split; [exact Hm|]. split; [exact Hd|].
  rewrite Hsrv in Hrest. cbn [is_redirect] in Hrest.
  rewrite Hparent, Hcode in Hrest.
  destruct ex as [msg sx px]. cbn in Hparent. subst px.
  cbv zeta in Hrest. by injection Hrest as -> ->.
Qed.


Lemma mapM_pure_world {A B} (f : A -> exn + B) (l : list A) (w : World) :
  snd (mapM (fun a w0 => (f a, w0)) l w) = w.
Proof.
  revert w. induction l as [|a l IH]; intros w; [reflexivity|].
  cbn. unfold bind. destruct (f a) as [e|b]; [reflexivity|].
  specialize (IH w). destruct (mapM _ l w) as [[e|bs] w1]; exact IH.
Qed.

Ltac pure_loops H :=
  repeat match goal with
         | Heq : mapM (fun a w => (@?f a, w)) ?l ?w0 = (_, ?w1) |- _ =>
             let Hw := fresh "Hw" in
             pose proof (mapM_pure_world f l w0) as Hw; cbv beta in Hw;
             rewrite Heq in Hw; cbn [snd] in Hw; subst w1; clear Heq
         end.

(** One request, carrying the dict the call built. *)
Ltac plain_call :=
  try match goal with
      | m : PyVal |- _ => destruct (safe_octal_total m) as [?p ?Hp]
      end;
  eexists; split; [|split];
  [ | | let w := fresh "w" in
        let Hu := fresh "Hu" in
        let Hrun := fresh "Hrun" in
        intros w ? ? Hu Hrun; unfold_facade Hrun;
        repeat match goal with
               | Hp : safe_octal _ = _ |- _ => rewrite Hp in Hrun
               end;
        rewrite Hu in Hrun; tidy_run Hrun; split_run Hrun; pure_loops Hrun;
        cbv beta in Hrun; injection Hrun as <- <-; cbn [heap trace];
        (split; [reflexivity|]);
        eexists _, [];
        (split; [reflexivity|]);
        (split; [reflexivity | intros ? []]) ];
  by simplify_map_eq.

(** C9: a call of the facade made under identity [u] builds one dict,
    determined by the identity and the call's own arguments alone, that
    holds [u] under [user.name] and the call's operation code under [op];
    it is stored at a fresh address while every dict built before stays as
    it was; the request the call sends carries this dict, and the only
    other request a call can send (the data leg of create and append)
    carries none. *)
Theorem fresh_parameters_per_call (c : Call) (u : string) :
  exists d : dict,
    d !! "user.name" = Some (VStr u)
    /\ d !! "op" = Some (VStr (op_code c))
    /\ forall w w' r,
         users w !! tid = Some u ->
         run_call self tid c w = (r, w') ->
         heap w' = (heap w ++ [d])%list
         /\ exists rq rest,
              trace w' = (trace w ++ rq :: rest)%list
              /\ rq_params rq = Some d
              /\ forall rq', In rq' rest -> rq_params rq' = None.
Proof.
  destruct c as [path [g|] | path | path | path | path | path | path
                | path [|] | path | path | path | path [m|]
                | old new | path [us|] [gr|] | path m | | path offset len [bs|]
                | wc | renewer];
    [plain_call .. | | plain_call].
  destruct (run_write_prologue wc u) as (d & Hname & Hop & Heq).
  exists d. split; [exact Hname|]. split; [exact Hop|].
  intros w w' r Hu Hrun.
  unfold run_call, discard, bind in Hrun.
  rewrite (Heq w Hu), discard_invoke_with_redirect_run in Hrun.
  cbv zeta in Hrun. cbn [srv users heap trace mbind option_bind] in Hrun.
  rewrite lookup_snoc in Hrun.
  set (rq := {| rq_url := _url self |}) in Hrun.
  destruct (srv w (trace w) rq) as [e|body].
  - destruct (is_redirect e).
    + destruct e as [[msg sx [[code [loc|]|reason]|]]| | | | |];
        try (destruct (srv w _ _)); cbn [dropped] in Hrun;
        injection Hrun as <- <-; cbn [heap trace];
        (split; [reflexivity|]); rewrite <- ?app_assoc;
        eexists rq, _; (split; [reflexivity|]); (split; [reflexivity|]);
        cbn; intros rq' Hin; intuition; by subst.
    + injection Hrun as <- <-. cbn [heap trace]. split; [reflexivity|].
      exists rq, []. split; [reflexivity|]. split; [reflexivity | intros ? []].
  - injection Hrun as <- <-. cbn [heap trace]. split; [reflexivity|].
    exists rq, []. split; [reflexivity|]. split; [reflexivity | intros ? []].
Qed.

(** What the constructor of [File] does with the outcome of [stats]. *)
Lemma File_init_outcome (path mode : string) (w : World) :
  File_init self tid path mode w
  = let handle st := {| _path := normpath path; _pos := 0; _mode := mode;
                        _stat := st |} in
    match stats self tid path w with
    | (inr st, w') =>
        if isDir st then (inr (handle None), w') else (inr (handle (Some st)), w')
    | (inl (IOError en msg), w') =>
        if bool_decide (en = Some errno.ENOENT) && String.eqb mode "r"
        then (inl (IOError en msg), w')
        else (inr (handle None), w')
    | (inl e, w') => (inl e, w')
    end.
Proof.
  unfold File_init, try_except, bind, ret, raise. cbv zeta.
  destruct (stats self tid path w) as [[e|st] w']; cbn.
  - destruct e; try reflexivity.
    destruct (bool_decide (errno = Some errno.ENOENT) && String.eqb mode "r");
      reflexivity.
  - destruct (isDir st); cbn; [|reflexivity].
    rewrite bool_decide_eq_false_2 by discriminate. reflexivity.
Qed.

(** X11: a handle on an absent path is refused with [ENOENT] when the
    mode is exactly [r]; in any other mode, [rb] included, the handle is
    built and records no entry. *)
Lemma File_init_absent (path mode : string) (w : World) :
  fst (_stats self tid path w) = inr None ->
  fst (File_init self tid path mode w)
  = if String.eqb mode "r"
    then inl (IOError (Some errno.ENOENT) ("File " +:+ path +:+ " not found"))
    else inr {| _path := normpath path; _pos := 0; _mode := mode; _stat := None |}.
Proof.
  intros Habs. rewrite File_init_outcome, stats_via__stats, Habs. cbn.
  rewrite bool_decide_eq_true_2 by reflexivity. cbn.
  destruct (String.eqb mode "r"); reflexivity.
Qed.

(** On a directory the [EISDIR] raised inside the [try] is caught by the
    constructor's own [except IOError] clause: the handle is built. *)
Lemma File_init_directory (path mode : string) (w : World) (st : Stat) :
  fst (_stats self tid path w) = inr (Some st) ->
  isDir st = true ->
  fst (File_init self tid path mode w)
  = inr {| _path := normpath path; _pos := 0; _mode := mode; _stat := None |}.
Proof.
  intros Hst Hdir. rewrite File_init_outcome, stats_via__stats, Hst. cbn.
  rewrite Hdir. reflexivity.
Qed.

(** Without an identity on the calling thread nothing is built or sent. *)
Lemma no_identity_no_request (c : Call) (w : World) :
  users w !! tid = None ->
  snd (run_call self tid c w) = w.
Proof.
  intros Hu.
  destruct c as [| | | | | | | | | | | | | | | | | wc |];
    try (cbv [run_call discard remove rmdir rmtree _delete rename mkdir chown chmod
              listdir_stats get_content_summary _stats stats exists_ isdir isfile
              get_home_dir read get_delegation_token _getparams thread_local_user
              bind try_except];
         rewrite Hu; reflexivity).
  unfold run_call, discard, bind.
  pose proof (run_write_no_user wc w Hu) as Hw.
  destruct (run_write self tid wc w) as [[e|j] w1]; exact Hw.
Qed.

(** ** The single request of a method *)

Ltac shape_case :=
  try match goal with
      | m : PyVal |- _ => destruct (safe_octal_total m) as [?p ?Hp]
      end;
  let Hrun := fresh "Hrun" in
  intros _ ? ? ? ? Hu Hrun; unfold_facade Hrun;
  repeat match goal with
         | Hp : safe_octal _ = _ |- _ => rewrite Hp in Hrun
         end;
  rewrite Hu in Hrun; tidy_run Hrun; split_run Hrun; pure_loops Hrun;
  cbv beta in Hrun; injection Hrun as <- <-; cbn [heap trace users srv];
  eexists;
  (split; [reflexivity|]);
  (split; [reflexivity|]);
  (split; [reflexivity|]);
  (split; [reflexivity|]);
  (split; [by simplify_map_eq|]);
  (split; [by simplify_map_eq|]);
  (split;
   [ let Hin := fresh "Hin" in
     intros ? ? Hin; cbn [call_fields In mbind option_bind] in Hin;
     unfold octal_param in Hin;
     repeat match goal with
            | Hp : safe_octal _ = _ |- _ => rewrite Hp in Hin
            end;
     repeat (destruct Hin as [Hin|Hin]); try contradiction;
     injection Hin as <- <-; by simplify_map_eq |]);
  let He := fresh "He" in
  let Hl := fresh "Hl" in
  intros ? He Hl; unfold call_request in He;
  cbn [call_method call_relpath call_decodes] in He;
  agree; first [reflexivity | discriminate Hl].

(** A method other than create and append, run under identity [u], builds
    one dict, sends one request with it, leaves identity and server as
    they were, and hands a failure of the transport to its caller unless
    it is one of the lookups. *)
Lemma plain_call_shape (c : Call) :
  is_write c = false ->
  forall (u : string) (w w' : World) (r : exn + unit),
    users w !! tid = Some u ->
    run_call self tid c w = (r, w') ->
    exists d : dict,
      heap w' = (heap w ++ [d])%list
      /\ trace w' = (trace w ++ [call_request self c d])%list
      /\ users w' = users w
      /\ srv w' = srv w
      /\ d !! "user.name" = Some (VStr u)
      /\ d !! "op" = Some (VStr (op_code c))
      /\ (forall k v, In (k, v) (call_fields c) -> d !! k = v)
      /\ forall e, srv w (trace w) (call_request self c d) = inl e ->
                   is_lookup c = false -> r = inl e.
Proof.
  destruct c as [path [g|] | path | path | path | path | path | path
                | path [|] | path | path | path | path [m|]
                | old new | path [us|] [gr|] | path m | | path offset len [bs|]
                | wc | renewer];
    [shape_case .. | discriminate | shape_case].
Qed.

(** The dict of a create or append call, with its fields. *)
Lemma run_write_fields (c : WriteCall) (u : string) :
  exists d : dict,
    (forall w, users w !! tid = Some u ->
       run_write self tid c w
       = discard (_invoke_with_redirect self (write_method c) (write_path c)
                    (Some (length (heap w))) (write_data c))
           {| srv := srv w; users := users w; heap := heap w ++ [d];
              trace := trace w |})
    /\ d !! "user.name" = Some (VStr u)
    /\ d !! "op" = Some (VStr (op_code (CWrite c)))
    /\ forall k v, In (k, v) (call_fields (CWrite c)) -> d !! k = v.
Proof.
  destruct c as [path [|] [bs|] [rep|] [perm|] data | path data];
    try destruct (safe_octal_total perm) as [p Hp];
    (eexists; split; [|split; [|split]];
     [ intros w Hu;
       unfold run_write, create, append, _getparams, thread_local_user,
         new_dict, setitem, discard, bind, ret, lift;
       rewrite Hu; rewrite ?Hp; cbn [srv users heap trace];
       rewrite ?alter_snoc; reflexivity
     | by simplify_map_eq
     | by simplify_map_eq
     | intros k v Hin; cbn [call_fields In mbind option_bind fmap option_fmap option_map] in Hin;
       unfold octal_param in Hin; rewrite ?Hp in Hin;
       repeat (destruct Hin as [Hin|Hin]); try contradiction;
       injection Hin as <- <-; by simplify_map_eq ]).
Qed.

(** Every method, run under identity [u]: its first request, the dict in
    it, and what the run leaves untouched. *)
Lemma first_request_of_call (c : Call) (u : string) (w w' : World) (r : exn + unit) :
  users w !! tid = Some u ->
  run_call self tid c w = (r, w') ->
  exists (d : dict) (rest : list Request),
    heap w' = (heap w ++ [d])%list
    /\ trace w' = (trace w ++ call_request self c d :: rest)%list
    /\ users w' = users w
    /\ srv w' = srv w
    /\ d !! "user.name" = Some (VStr u)
    /\ d !! "op" = Some (VStr (op_code c))
    /\ (forall k v, In (k, v) (call_fields c) -> d !! k = v)
    /\ (is_write c = false -> rest = []).
Proof.
  intros Hu Hrun.
  destruct (is_write c) eqn:Hw.
  2:{ destruct (plain_call_shape c Hw u w w' r Hu Hrun)
        as (d & Hh & Ht & Hus & Hs & Hn & Ho & Hf & _).
      exists d, []. repeat split; assumption. }
  destruct c; try discriminate Hw. rename c into wc.
  destruct (run_write_fields wc u) as (d & Heq & Hn & Ho & Hf).
  exists d.
  unfold run_call, discard, bind in Hrun.
  rewrite (Heq w Hu), discard_invoke_with_redirect_run in Hrun.
  cbv zeta in Hrun. cbn [srv users heap trace mbind option_bind] in Hrun.
  rewrite lookup_snoc in Hrun.
  change {| rq_url := _url self; rq_method := write_method wc;
            rq_relpath := Some (write_path wc); rq_params := Some d;
            rq_data := None; rq_json_decode := true |}
    with (call_request self (CWrite wc) d) in Hrun.
  set (rq := call_request self (CWrite wc) d) in *.
  assert (Hshape : exists rest, heap w' = (heap w ++ [d])%list
                    /\ trace w' = (trace w ++ rq :: rest)%list
                    /\ users w' = users w /\ srv w' = srv w).
  { destruct (srv w (trace w) rq) as [e|body].
    - destruct (is_redirect e).
      + destruct e as [[msg sx [[code [loc|]|reason]|]]| | | | |];
          try (destruct (srv w _ _)); cbn [dropped] in Hrun;
          injection Hrun as <- <-; cbn [heap trace users srv];
          rewrite <- ?app_assoc; eexists; repeat split.
      + injection Hrun as <- <-. exists []. repeat split.
    - injection Hrun as <- <-. exists []. repeat split. }
  destruct Hshape as (rest & Hh & Ht & Hus & Hs).
  exists rest. repeat split; try assumption. discriminate.
Qed.


(** ** Further properties of the facade *)

Ltac one_request Hrun Htr :=
  unfold_facade Hrun;
  repeat match goal with
         | Hp : safe_octal _ = _ |- _ => rewrite Hp in Hrun
         end;
  match type of Hrun with
  | context [users ?w !! ?t] => destruct (users w !! t) eqn:?
  end; tidy_run Hrun; split_run Hrun; pure_loops Hrun; first_request Hrun Htr; agree.

(** X5: [chown] and [chmod] return normally once their request is
    answered, whatever the body says. *)
Theorem chown_chmod_ignore_body (path : string) (user group : option PyVal)
    (mode : PyVal) (w w' : World) (r : exn + unit) (rq : Request)
    (rest : list Request) (body : json) :
  chown self tid path user group w = (r, w')
  \/ chmod self tid path mode w = (r, w') ->
  trace w' = (trace w ++ rq :: rest)%list ->
  srv w (trace w) rq = inr body ->
  r = inr tt.
Proof.
  intros [Hrun|Hrun] Htr Hsrv.
  - destruct user, group; one_request Hrun Htr; reflexivity.
  - destruct (safe_octal_total mode) as [p Hp].
    one_request Hrun Htr; reflexivity.
Qed.

(** X6: [mkdir] raises its [IOError] exactly when the decoded body is
    false as a Python value, and returns normally otherwise. *)
Theorem mkdir_fails_on_falsy_body (path : string) (mode : option PyVal)
    (w w' : World) (r : exn + unit) (rq : Request) (rest : list Request)
    (body : json) :
  mkdir self tid path mode w = (r, w') ->
  trace w' = (trace w ++ rq :: rest)%list ->
  srv w (trace w) rq = inr body ->
  r = if truthy body then inr tt
      else inl (IOError None ("Mkdir failed: " +:+ encode_fs_path (Hdfs_normpath path))).
Proof.
  intros Hrun Htr Hsrv.
  destruct mode as [m|]; [destruct (safe_octal_total m) as [p Hp]|];
    one_request Hrun Htr;
    match goal with
    | Hn : negb (truthy ?b) = _ |- _ => destruct (truthy b); cbn in Hn; try discriminate Hn
    end; reflexivity.
Qed.

(** X7: a delete or rename reads the [boolean] entry of the body: it
    raises [KeyError] (or [TypeError]) when the entry cannot be read,
    returns when the entry is true as a Python value, and raises its
    [IOError] otherwise. *)
Theorem delete_rename_read_boolean_entry (c : Call) (e : exn) (w w' : World)
    (r : exn + unit) (rq : Request) (rest : list Request) (body : json) :
  boolean_failure c = Some e ->
  run_call self tid c w = (r, w') ->
  trace w' = (trace w ++ rq :: rest)%list ->
  srv w (trace w) rq = inr body ->
  r = match getitem body "boolean" with
      | inl missing => inl missing
      | inr v => if truthy v then inr tt else inl e
      end.
Proof.
  intros Hc Hrun Htr Hsrv.
  destruct c; try discriminate Hc; injection Hc as <-;
    one_request Hrun Htr;
    repeat match goal with
           | Hg : getitem _ _ = _ |- _ => rewrite Hg
           end;
    try match goal with
        | Hn : negb (truthy ?b) = _ |- _ => destruct (truthy b); cbn in Hn; try discriminate Hn
        end; reflexivity.
Qed.

(** X9: [_get_redirect_url] sends nothing; when it raises, it raises the
    exception it was given, also for a wrapped error without a status
    code; when it answers, the wrapped error has one of the four codes and
    the answer is its location header. *)
Theorem redirect_url_outcome (ex : WebHdfsException) (w : World) :
  snd (_get_redirect_url ex w) = w
  /\ (forall e, fst (_get_redirect_url ex w) = inl e -> e = WebHdfsExc ex)
  /\ (forall location, fst (_get_redirect_url ex w) = inr location ->
        exists code, parent_ex ex = Some (HTTPError code location)
                     /\ In code [301; 302; 303; 307]).
Proof.
  unfold _get_redirect_url, try_except, bind, lift, raise, get_parent_ex.
  destruct (parent_ex ex) as [[code loc|reason]|] eqn:Hp; cbn [http_error_code].
  - destruct (existsb (Z.eqb code) redirect_codes) eqn:Hc; cbn.
    + split; [reflexivity|]. split; [discriminate|].
      intros location [= <-]. exists code. split; [reflexivity|].
      by apply redirect_code_recognised.
    + split; [reflexivity|]. split; [by intros e [= <-] | discriminate].
  - split; [reflexivity|]. split; [by intros e [= <-] | discriminate].
  - split; [reflexivity|]. split; [by intros e [= <-] | discriminate].
Qed.

Lemma mapM_pure_ok {A B} (f : A -> exn + B) (l : list A) (bs : list B) (w : World) :
  Forall2 (fun a b => f a = inr b) l bs ->
  mapM (fun a w0 => (f a, w0)) l w = (inr bs, w).
Proof.
  induction 1 as [|a b l bs Hab _ IH]; [reflexivity|].
  cbn [mapM]. unfold bind, ret. cbv beta. rewrite Hab, IH. reflexivity.
Qed.

Lemma mapM_pure_fails {A B} (f : A -> exn + B) (l1 l2 : list A) (bs : list B)
    (a : A) (e : exn) (w : World) :
  Forall2 (fun a b => f a = inr b) l1 bs ->
  f a = inl e ->
  mapM (fun a w0 => (f a, w0)) (l1 ++ a :: l2) w = (inl e, w).
Proof.
  induction 1 as [|a1 b l1 bs Hab _ IH]; intros Hf.
  - cbn [mapM app]. unfold bind. cbv beta. rewrite Hf. reflexivity.
  - cbn [mapM app]. unfold bind, ret. cbv beta. rewrite Hab, (IH Hf). reflexivity.
Qed.

(** X10: when the listing's body holds an array of statuses,
    [listdir_stats] returns the entries built from them, in order, each
    with the encoded directory path; the first status that cannot be
    built makes the method raise that error. *)
Theorem listdir_stats_entries (path : string) (glob : option PyVal) (w w' : World)
    (r : exn + list Stat) (rq : Request) (rest : list Request)
    (body statuses : json) (l : list json) :
  listdir_stats self tid path glob w = (r, w') ->
  trace w' = (trace w ++ rq :: rest)%list ->
  srv w (trace w) rq = inr body ->
  getitem body "FileStatuses" = inr statuses ->
  getitem statuses "FileStatus" = inr (JArr l) ->
  (forall sts,
      Forall2 (fun st s => WebHdfsStat st (encode_fs_path (Hdfs_normpath path)) = inr s)
        l sts ->
      r = inr sts)
  /\ (forall l1 st l2 sts e,
        l = (l1 ++ st :: l2)%list ->
        Forall2 (fun st s => WebHdfsStat st (encode_fs_path (Hdfs_normpath path)) = inr s)
          l1 sts ->
        WebHdfsStat st (encode_fs_path (Hdfs_normpath path)) = inl e ->
        r = inl e).
Proof.
  intros Hrun Htr Hsrv Hg1 Hg2.
  assert (Hr : r = fst (mapM (fun st w0 =>
                  (WebHdfsStat st (encode_fs_path (Hdfs_normpath path)), w0)) l w')).
  { destruct glob;
      unfold_facade Hrun;
      (destruct (users w !! tid) eqn:Hu); tidy_run Hrun; split_run Hrun;
      try match type of Hrun with
          | mapM (fun a wa => (@?f a, wa)) ?l0 ?w0 = (_, ?w1) =>
              let Hw := fresh "Hw" in
              pose proof (mapM_pure_world f l0 w0) as Hw; cbv beta in Hw;
              rewrite Hrun in Hw; cbn [snd] in Hw; subst w1;
              cbn [trace] in Htr; apply snoc_cons_inv in Htr; destruct Htr as [-> ->];
              agree; cbn in *; simplify_eq; rewrite Hrun; reflexivity
          end;
      first_request Hrun Htr; agree; discriminate. }
  split.
  - intros sts Hall. rewrite Hr, (mapM_pure_ok _ _ _ _ Hall). reflexivity.
  - intros l1 st l2 sts e -> Hall Hfail.
    rewrite Hr, (mapM_pure_fails _ _ _ _ _ _ _ Hall Hfail). reflexivity.
Qed.


End FacadeFacts.

Section FacadeMore.
Context `{Collaborators}.
Variable self : WebHdfs.
Variable tid : nat.


(** X2: the dict of a method's first request holds each of the method's
    own fields with the value the arguments give it, and lacks an optional
    field exactly when its argument is [None]. *)
Theorem call_fields_reach_the_request (c : Call) (u : string) (w w' : World)
    (r : exn + unit) (rq : Request) (rest : list Request) :
  users w !! tid = Some u ->
  run_call self tid c w = (r, w') ->
  trace w' = (trace w ++ rq :: rest)%list ->
  exists d : dict,
    rq_params rq = Some d
    /\ forall k v, In (k, v) (call_fields c) -> d !! k = v.
Proof.
  intros Hu Hrun Htr.
  destruct (first_request_of_call self tid c u w w' r Hu Hrun)
    as (d & rest' & _ & Ht & _ & _ & _ & _ & Hf & _).
  rewrite Ht in Htr. apply app_inv_head in Htr. injection Htr as <- <-.
  exists d. split; [reflexivity | exact Hf].
Qed.

(** X3: a method that is neither a lookup nor create or append hands a
    failure of its request to the caller as it is. *)
Theorem transport_failure_reaches_caller (c : Call) (u : string) (w w' : World)
    (r : exn + unit) (rq : Request) (rest : list Request) (e : exn) :
  is_write c = false ->
  is_lookup c = false ->
  users w !! tid = Some u ->
  run_call self tid c w = (r, w') ->
  trace w' = (trace w ++ rq :: rest)%list ->
  srv w (trace w) rq = inl e ->
  r = inl e.
Proof.
  intros Hw Hl Hu Hrun Htr Hsrv.
  destruct (plain_call_shape self tid c Hw u w w' r Hu Hrun)
    as (d & _ & Ht & _ & _ & _ & _ & _ & Herr).
  rewrite Ht in Htr. apply app_inv_head in Htr. injection Htr as <- <-.
  exact (Herr e Hsrv Hl).
Qed.

(** X4: two methods run one after the other on a thread send one request
    each, in order, each with a dict of its own and both under the
    thread's identity: nothing is remembered from the first run, even when
    it raised. *)
Theorem consecutive_calls_each_send (c1 c2 : Call) (u : string) (w w1 w2 : World)
    (r1 r2 : exn + unit) :
  is_write c1 = false -> is_write c2 = false ->
  users w !! tid = Some u ->
  run_call self tid c1 w = (r1, w1) ->
  run_call self tid c2 w1 = (r2, w2) ->
  exists d1 d2 : dict,
    trace w2 = (trace w ++ [call_request self c1 d1; call_request self c2 d2])%list
    /\ heap w2 = (heap w ++ [d1; d2])%list
    /\ d1 !! "user.name" = Some (VStr u)
    /\ d2 !! "user.name" = Some (VStr u).
Proof.
  intros Hw1 Hw2 Hu Hrun1 Hrun2.
  destruct (plain_call_shape self tid c1 Hw1 u w w1 r1 Hu Hrun1)
    as (d1 & Hh1 & Ht1 & Hus1 & _ & Hn1 & _).
  assert (Hu1 : users w1 !! tid = Some u) by (rewrite Hus1; exact Hu).
  destruct (plain_call_shape self tid c2 Hw2 u w1 w2 r2 Hu1 Hrun2)
    as (d2 & Hh2 & Ht2 & _ & _ & Hn2 & _).
  exists d1, d2. rewrite Ht2, Ht1, Hh2, Hh1, <- !app_assoc.
  repeat split; assumption.
Qed.


(** X8: a first leg answered with a redirect status but no location
    header makes create and append raise the no-redirect
    [WebHdfsException] built from the path alone, without a second
    request. *)
Theorem redirect_without_location (c : WriteCall) (w w' : World) (r : exn + unit)
    (rq1 : Request) (rest : list Request) (ex : WebHdfsException) (code : Z) :
  run_write self tid c w = (r, w') ->
  trace w' = (trace w ++ rq1 :: rest)%list ->
  srv w (trace w) rq1 = inl (WebHdfsExc ex) ->
  parent_ex ex = Some (HTTPError code None) ->
  In code [301; 302; 303; 307] ->
  rest = []
  /\ r = inl (WebHdfsExc (WebHdfsException_of_message
            ("Failed to create '" +:+ write_path c
             +:+ "'. HDFS did not return a redirect"))).
Proof.
  intros Hrun Htr Hsrv Hparent Hcode.
  apply redirect_code_recognised in Hcode.
  destruct (run_write_first_leg self tid c w w' r rq1 rest Hrun Htr) as (_ & _ & Hrest).
  rewrite Hsrv in Hrest. cbn [is_redirect] in Hrest.
  rewrite Hparent, Hcode in Hrest.
  destruct ex as [msg sx px]. cbn in Hparent. subst px.
  by injection Hrest as -> ->.
Qed.

(** X12: opening an existing file, in any mode, gives a handle at position
    0 that keeps the normalised path, the mode and the entry found, after
    the one lookup. *)
Theorem File_init_existing_file (path mode : string) (w : World) (st : Stat) :
  fst (_stats self tid path w) = inr (Some st) ->
  isDir st = false ->
  File_init self tid path mode w
  = (inr {| _path := normpath path; _pos := 0; _mode := mode; _stat := Some st |},
     snd (_stats self tid path w)).
Proof.
  intros Hst Hdir. rewrite File_init_outcome, stats_via__stats, Hst. cbn.
  rewrite Hdir. reflexivity.
Qed.

(** X13: when the lookup of the constructor raises, an exception that is
    not an [IOError] fails the construction in every mode; an [IOError]
    fails it only with [ENOENT] in mode [r], and is otherwise swallowed
    into a handle without entry. *)
Theorem File_init_lookup_failure (path mode : string) (w : World) (e : exn) :
  fst (_stats self tid path w) = inl e ->
  fst (File_init self tid path mode w)
  = match e with
    | IOError en msg =>
        if bool_decide (en = Some errno.ENOENT) && String.eqb mode "r"
        then inl e
        else inr {| _path := normpath path; _pos := 0; _mode := mode; _stat := None |}
    | _ => inl e
    end.
Proof.
  intros He. rewrite File_init_outcome, stats_via__stats, He. cbn.
  destruct e; try reflexivity.
  destruct (bool_decide (errno = Some errno.ENOENT) && String.eqb mode "r");
    reflexivity.
Qed.

Lemma File_init_keeps_mode (path mode : string) (w w' : World) (f : File) :
  File_init self tid path mode w = (inr f, w') ->
  _mode f = mode /\ _path f = normpath path /\ _pos f = 0.
Proof.
  rewrite File_init_outcome. cbv zeta.
  destruct (stats self tid path w) as [[e|st] w1].
  - destruct e; try discriminate.
    destruct (bool_decide (errno = Some errno.ENOENT) && String.eqb mode "r");
      [discriminate|].
    by intros [= <- <-].
  - destruct (isDir st); by intros [= <- <-].
Qed.

(** X14: a handle opened with a mode without the letter [w] rejects every
    write with [EINVAL] and sends nothing. *)
Theorem read_mode_handle_rejects_write (path mode : string) (w0 w : World) (f : File)
    (data : option string) (w1 : World) :
  File_init self tid path mode w0 = (inr f, w) ->
  existsb (Ascii.eqb "w"%char) (list_ascii_of_string mode) = false ->
  File_write self tid f data w1
  = (inl (IOError (Some errno.EINVAL) "File not open for writing"), w1).
Proof.
  intros Hinit Hmode.
  destruct (File_init_keeps_mode path mode w0 w f Hinit) as (Hm & _ & _).
  unfold File_write, File_append. rewrite Hm, Hmode. reflexivity.
Qed.

Lemma run_call_of_write (c : WriteCall) (w w' : World) (r : exn + unit) :
  run_write self tid c w = (r, w') ->
  exists r', run_call self tid (CWrite c) w = (r', w').
Proof.
  intros Hrun. unfold run_call, discard, bind. rewrite Hrun.
  destruct r; eexists; reflexivity.
Qed.

(** X15: a write through a handle whose mode has the letter [w] goes by
    the entry recorded at opening: APPEND by POST when there is one,
    CREATE by PUT with [overwrite=false] when there is none; the write
    does not update the handle, so this holds for every write through it. *)
Theorem write_routes_by_recorded_entry (f : File) (data : option string) (u : string)
    (w w' : World) (r : exn + unit) :
  existsb (Ascii.eqb "w"%char) (list_ascii_of_string (_mode f)) = true ->
  users w !! tid = Some u ->
  File_write self tid f data w = (r, w') ->
  exists (d : dict) (rest : list Request),
    trace w' = (trace w ++ {| rq_url := _url self;
                              rq_method := match _stat f with Some _ => "POST" | None => "PUT" end;
                              rq_relpath := Some (encode_fs_path (Hdfs_normpath (_path f)));
                              rq_params := Some d; rq_data := None;
                              rq_json_decode := true |} :: rest)%list
    /\ d !! "user.name" = Some (VStr u)
    /\ d !! "op" = Some (VStr match _stat f with Some _ => "APPEND" | None => "CREATE" end)
    /\ (_stat f = None -> d !! "overwrite" = Some (VStr "false")).
Proof.
  intros Hmode Hu Hrun.
  unfold File_write, File_append in Hrun. rewrite Hmode in Hrun. cbn [negb] in Hrun.
  destruct (_stat f) as [st|].
  - destruct (run_call_of_write (Append (_path f) data) w w' r Hrun) as [r' Hcall].
    destruct (first_request_of_call self tid _ u w w' r' Hu Hcall)
      as (d & rest & _ & Ht & _ & _ & Hn & Ho & _ & _).
    exists d, rest. split; [exact Ht|]. split; [exact Hn|]. split; [exact Ho|].
    discriminate.
  - destruct (run_call_of_write (Create (_path f) false None None None data) w w' r Hrun)
      as [r' Hcall].
    destruct (first_request_of_call self tid _ u w w' r' Hu Hcall)
      as (d & rest & _ & Ht & _ & _ & Hn & Ho & Hf & _).
    exists d, rest. split; [exact Ht|]. split; [exact Hn|]. split; [exact Ho|].
    intros _. apply Hf. cbn. left. reflexivity.
Qed.


End FacadeMore.

(** ** Identity, permissions and the file handle *)

Section Identity.
Context `{Collaborators}.
Variable self : WebHdfs.

(** X16: after [setuser] on one thread, a method on that thread carries
    the new identity, whether or not the thread had one before, and a
    method on any other thread carries the identity that thread had. *)
Theorem setuser_is_per_thread (t t' : nat) (u : string) (c : Call)
    (w w' : World) (r : exn + unit) :
  run_call self t' c (snd (setuser t u w)) = (r, w') ->
  (t = t' ->
   exists (d : dict) (rest : list Request),
     trace w' = (trace w ++ call_request self c d :: rest)%list
     /\ d !! "user.name" = Some (VStr u))
  /\ (t <> t' ->
      forall u', users w !! t' = Some u' ->
      exists (d : dict) (rest : list Request),
        trace w' = (trace w ++ call_request self c d :: rest)%list
        /\ d !! "user.name" = Some (VStr u')).
Proof.
  intros Hrun. split.
  - intros <-.
    assert (Hu : users (snd (setuser t u w)) !! t = Some u)
      by apply lookup_insert_eq.
    destruct (first_request_of_call self t c _ _ w' r Hu Hrun)
      as (d & rest & _ & Ht & _ & _ & Hn & _).
    exists d, rest. split; [exact Ht | exact Hn].
  - intros Hne u' Hu'.
    assert (Hu : users (snd (setuser t u w)) !! t' = Some u').
    { cbn. rewrite lookup_insert_ne by exact Hne. exact Hu'. }
    destruct (first_request_of_call self t' c _ _ w' r Hu Hrun)
      as (d & rest & _ & Ht & _ & _ & Hn & _).
    exists d, rest. split; [exact Ht | exact Hn].
Qed.


(** X18: a client built from the configuration has the superuser [hdfs]
    and the default identity; its URL is the override when that is a
    non-empty string, and the namenode's host and port otherwise. *)
Theorem from_config_target (cfg : HdfsConfig) (t0 : nat) (w w1 : World) (fs : WebHdfs) :
  from_config cfg t0 w = (inr fs, w1) ->
  _superuser fs = "hdfs"
  /\ users w1 !! t0 = Some "hue_webui"
  /\ (forall override, WEBHDFS_URL cfg = Some override -> override <> "" ->
        _url fs = override)
  /\ (WEBHDFS_URL cfg = None \/ WEBHDFS_URL cfg = Some "" ->
      _url fs = "http://" +:+ NN_HOST cfg +:+ ":" +:+ str_int (NN_HTTP_PORT cfg)
                +:+ "/webhdfs/v1").
Proof.
  unfold from_config, WebHdfs_init, bind, ret, setuser. intros [= <- <-].
  cbn [_superuser _url users]. split; [reflexivity|].
  split; [apply lookup_insert_eq|]. unfold _get_service_url. split.
  - intros override -> Hne.
    destruct (String.eqb_spec override ""); [contradiction | reflexivity].
  - intros [-> | ->]; reflexivity.
Qed.

End Identity.

Section OctalLong.

Lemma octal_value_digits_L (s : string) :
  forall a, octal_value_digits (s +:+ "L") a = None.
Proof.
  induction s as [|c s IH]; intros a; [reflexivity|].
  change (String c s +:+ "L") with (String c (s +:+ "L")).
  cbn [octal_value_digits]. cbv zeta.
  match goal with
  | |- context [if ?b then _ else _] => destruct b
  end; [apply IH | reflexivity].
Qed.

(** X19: for a [long] the transmitted permission is that of the [int]
    followed by the letter L, which is not an octal numeral. *)
Theorem safe_octal_long_is_no_octal_numeral (n : Z) :
  exists s, safe_octal (VLong n) = inr (s +:+ "L")
            /\ safe_octal (VInt n) = inr s
            /\ octal_value (s +:+ "L") = None.
Proof.
  exists (oct_int n). split; [reflexivity|]. split; [reflexivity|].
  unfold oct_int. destruct (n =? 0); [reflexivity|].
  set (ds := octal_digits _ _ _).
  destruct (n <? 0).
  - change (Z.opp <$> octal_value_digits (ds +:+ "L") 0 = None).
    by rewrite octal_value_digits_L.
  - change (octal_value_digits (ds +:+ "L") 0 = None).
    apply octal_value_digits_L.
Qed.

End OctalLong.

Section FileFacts.
Context `{Collaborators}.
Variable stat_length : Stat -> Z.
Variable self : WebHdfs.
Variable tid : nat.

(** X20: a seek from the start or from the current position sends nothing
    and changes only the position; any other origin but the end raises
    [EINVAL] and leaves the handle as it was. *)
Theorem seek_moves_only_the_position (offset whence : Z) (f : File) (w : World) :
  whence <> SEEK_END ->
  let '(r, f', w') := File_seek stat_length self tid offset whence f w in
  w' = w
  /\ _path f' = _path f /\ _mode f' = _mode f /\ _stat f' = _stat f
  /\ (whence = SEEK_SET -> r = inr tt /\ File_tell f' = offset)
  /\ (whence = SEEK_CUR -> r = inr tt /\ File_tell f' = File_tell f + offset)
  /\ (whence <> SEEK_SET -> whence <> SEEK_CUR ->
      r = inl (IOError (Some errno.EINVAL) "Invalid argument to seek for whence")
      /\ f' = f).
Proof.
  intros Hend. unfold File_seek.
  destruct (Z.eqb_spec whence SEEK_SET) as [->|Hset].
  { repeat split; try reflexivity; try discriminate; intros; congruence. }
  destruct (Z.eqb_spec whence SEEK_CUR) as [->|Hcur].
  { repeat split; try reflexivity; try discriminate; intros; congruence. }
  destruct (Z.eqb_spec whence SEEK_END) as [->|_]; [congruence|].
  repeat split; try reflexivity; intros; congruence.
Qed.

Lemma run_call_of_stats (path : string) (w w' : World) (r : exn + Stat) :
  stats self tid path w = (r, w') ->
  exists r', run_call self tid (CStats path) w = (r', w').
Proof.
  intros Hrun. unfold run_call, discard, bind. rewrite Hrun.
  destruct r; eexists; reflexivity.
Qed.

(** X21: a successful seek from the end looks the entry up twice: the
    first answer becomes the recorded entry, the length of the second plus
    the offset becomes the position. *)
Theorem seek_from_end_looks_up_twice (offset : Z) (f f' : File) (u : string)
    (w w' : World) :
  users w !! tid = Some u ->
  File_seek stat_length self tid offset SEEK_END f w = (inr tt, f', w') ->
  exists (d1 d2 : dict) (st1 st2 : Stat) (w1 : World),
    stats self tid (_path f) w = (inr st1, w1)
    /\ stats self tid (_path f) w1 = (inr st2, w')
    /\ trace w' = (trace w ++ [call_request self (CStats (_path f)) d1;
                               call_request self (CStats (_path f)) d2])%list
    /\ _stat f' = Some st1
    /\ File_tell f' = stat_length st2 + offset
    /\ _path f' = _path f /\ _mode f' = _mode f.
Proof.
  intros Hu Hseek. unfold File_seek, File_stat in Hseek. cbn [Z.eqb SEEK_END SEEK_SET SEEK_CUR] in Hseek.
  change (2 =? 0) with false in Hseek. change (2 =? 1) with false in Hseek.
  change (2 =? 2) with true in Hseek. cbv iota in Hseek.
  destruct (stats self tid (_path f) w) as [[e1|st1] w1] eqn:Hs1; [discriminate|].
  cbn [with_stat _path] in Hseek.
  destruct (stats self tid (_path f) w1) as [[e2|st2] w2] eqn:Hs2; [discriminate|].
  injection Hseek as <- <-.
  destruct (run_call_of_stats _ _ _ _ Hs1) as [r1 Hc1].
  destruct (run_call_of_stats _ _ _ _ Hs2) as [r2 Hc2].
  destruct (plain_call_shape self tid (CStats (_path f)) eq_refl u w w1 r1 Hu Hc1)
    as (d1 & _ & Ht1 & Hus1 & _).
  assert (Hu1 : users w1 !! tid = Some u) by (rewrite Hus1; exact Hu).
  destruct (plain_call_shape self tid (CStats (_path f)) eq_refl u w1 w2 r2 Hu1 Hc2)
    as (d2 & _ & Ht2 & _).
  exists d1, d2, st1, st2, w1.
  rewrite Ht2, Ht1, <- app_assoc. repeat split; assumption || reflexivity.
Qed.

Lemma read_run (path : string) (offset length : Z) (u : string) (w : World) :
  users w !! tid = Some u ->
  let d : dict := <["length" := VLong length]>
                    (<["offset" := VLong offset]>
                       (<["op" := VStr "OPEN"]> {["user.name" := VStr u]})) in
  let rq := call_request self (CRead path offset length None) d in
  read self tid path offset length None w
  = (srv w (trace w) rq,
     {| srv := srv w; users := users w; heap := heap w ++ [d];
        trace := trace w ++ [rq] |}).
Proof.
  intros Hu. cbv zeta.
  unfold read, _getparams, thread_local_user, new_dict, setitem, bind, ret,
    _root_get_raw, Resource_get_raw, Resource_invoke.
  rewrite Hu. cbn [srv users heap trace mbind option_bind].
  rewrite !alter_snoc, lookup_snoc. reflexivity.
Qed.

Lemma File_read_run (n : Z) (f : File) (u : string) (w : World) :
  users w !! tid = Some u ->
  let d : dict := <["length" := VLong n]>
                    (<["offset" := VLong (_pos f)]>
                       (<["op" := VStr "OPEN"]> {["user.name" := VStr u]})) in
  let rq := call_request self (CRead (_path f) (_pos f) n None) d in
  let w1 := {| srv := srv w; users := users w; heap := heap w ++ [d];
               trace := trace w ++ [rq] |} in
  File_read self tid n f w
  = match srv w (trace w) rq with
    | inr data =>
        match py_len data with
        | inr k => (inr data, with_pos f (_pos f + k), w1)
        | inl e => (inl e, f, w1)
        end
    | inl e => (inl e, f, w1)
    end.
Proof.
  intros Hu. cbv zeta. unfold File_read.
  rewrite (read_run _ _ _ u w Hu). reflexivity.
Qed.

(** X22: a read asks for the requested length at the handle's position,
    without buffer size, and moves the position by the number of bytes
    that came back; when the request fails the handle stays as it was. *)
Theorem read_advances_by_returned_bytes (n : Z) (f f' : File) (u : string)
    (w w' : World) (r : exn + json) :
  users w !! tid = Some u ->
  File_read self tid n f w = (r, f', w') ->
  exists (d : dict) (rq : Request),
    trace w' = (trace w ++ [rq])%list
    /\ rq = call_request self (CRead (_path f) (File_tell f) n None) d
    /\ d !! "offset" = Some (VLong (File_tell f))
    /\ d !! "length" = Some (VLong n)
    /\ d !! "bufsize" = None
    /\ (forall data, srv w (trace w) rq = inr (JStr data) ->
          r = inr (JStr data)
          /\ File_tell f' = File_tell f + Z.of_nat (String.length data)
          /\ _path f' = _path f /\ _mode f' = _mode f /\ _stat f' = _stat f)
    /\ (forall e, srv w (trace w) rq = inl e -> r = inl e /\ f' = f).
Proof.
  intros Hu Hread.
  rewrite (File_read_run n f u w Hu) in Hread. cbv zeta in Hread.
  eexists _, _. split; [|split; [reflexivity|]].
  - destruct (srv w (trace w) _) as [e|data];
      [injection Hread as _ _ <-; reflexivity|].
    destruct (py_len data); injection Hread as _ _ <-; reflexivity.
  - split; [by simplify_map_eq|]. split; [by simplify_map_eq|].
    split; [by simplify_map_eq|]. split.
    + intros data Hsrv. unfold File_tell in *. rewrite Hsrv in Hread. cbn in Hread.
      by injection Hread as <- <- _.
    + intros e Hsrv. unfold File_tell in *. rewrite Hsrv in Hread.
      by injection Hread as <- <- _.
Qed.

(** X23: a read after a read asks for the bytes that follow the ones the
    first read returned. *)
Theorem reads_are_contiguous (n1 n2 : Z) (f f1 f2 : File) (u : string)
    (w w1 w2 : World) (data : string) (r2 : exn + json) (rq2 : Request) (d2 : dict) :
  users w !! tid = Some u ->
  File_read self tid n1 f w = (inr (JStr data), f1, w1) ->
  File_read self tid n2 f1 w1 = (r2, f2, w2) ->
  trace w2 = (trace w1 ++ [rq2])%list ->
  rq_params rq2 = Some d2 ->
  d2 !! "offset" = Some (VLong (File_tell f + Z.of_nat (String.length data))).
Proof.
  intros Hu Hr1 Hr2 Htr Hd2.
  rewrite (File_read_run n1 f u w Hu) in Hr1. cbv zeta in Hr1.
  destruct (srv w (trace w) _) as [e|body]; [discriminate|].
  destruct (py_len body) as [e|k] eqn:Hlen; [discriminate|].
  injection Hr1 as -> <- <-. cbn in Hlen. injection Hlen as <-.
  erewrite File_read_run in Hr2 by exact Hu. cbv zeta in Hr2.
  cbn [srv users heap trace _path _pos with_pos] in Hr2.
  assert (Ht : trace w2 = ((trace w ++ [call_request self (CRead (_path f) (_pos f) n1 None)
               (<["length" := VLong n1]> (<["offset" := VLong (_pos f)]>
                  (<["op" := VStr "OPEN"]> {["user.name" := VStr u]})))])
             ++ [call_request self
               (CRead (_path f) (_pos f + Z.of_nat (String.length data)) n2 None)
               (<["length" := VLong n2]>
                  (<["offset" := VLong (_pos f + Z.of_nat (String.length data))]>
                     (<["op" := VStr "OPEN"]> {["user.name" := VStr u]})))])%list).
  { destruct (srv w _ _) as [e|b2]; [by injection Hr2 as _ _ <-|].
    destruct (py_len b2); by injection Hr2 as _ _ <-. }
  rewrite Ht in Htr. cbn [trace] in Htr.
  apply app_inj_tail in Htr. destruct Htr as [_ <-].
  cbn in Hd2. injection Hd2 as <-. unfold File_tell. by simplify_map_eq.
Qed.

End FileFacts.

(** ** The properties at work *)

Section AtWork.
Import Scenario.

(** C4 (the code departs from it): a mkdir answered with a body whose
    [boolean] is false returns normally, where delete and rename on the
    same answer raise. *)
Theorem mkdir_false_outcome_returns :
  fst (mkdir (H := sample) fs 0 "/a" None (world_of [boolean_body false])) = inr tt
  /\ fst (mkdir (H := sample) fs 0 "/a" (Some (VInt 493)) (world_of [boolean_body false]))
     = inr tt
  /\ fst (_delete (H := sample) fs 0 "/a" false (world_of [boolean_body false]))
     = inl (IOError None "Delete failed: /a")
  /\ fst (rename (H := sample) fs 0 "/a" "/b" (world_of [boolean_body false]))
     = inl (IOError None "Rename failed: /a -> /b").
Proof. repeat split; vm_compute; reflexivity. Qed.

(** C10 (the code departs from it): opening a directory for reading
    builds a handle that records no entry instead of failing; an absent
    path is refused in read mode and accepted in write mode. *)
Theorem File_init_read_directory_returns :
  fst (File_init (H := sample) fs 0 "/d" "r" (world_of [status_body "DIRECTORY"]))
  = inr {| _path := "/d"; _pos := 0; _mode := "r"; _stat := None |}
  /\ fst (File_init (H := sample) fs 0 "/x" "r" (world_of [file_not_found]))
     = inl (IOError (Some errno.ENOENT) "File /x not found")
  /\ fst (File_init (H := sample) fs 0 "/x" "w" (world_of [file_not_found]))
     = inr {| _path := "/x"; _pos := 0; _mode := "w"; _stat := None |}.
Proof. repeat split; vm_compute; reflexivity. Qed.

Lemma redirect_write_second_leg_witness :
  (rq_method first_leg = "PUT"
   /\ rq_data first_leg = None
   /\ [second_leg] = [second_leg]
   /\ fst (run_write (H := sample) fs 0 create_call create_world)
      = match srv create_world (trace create_world ++ [first_leg])%list second_leg with
        | inr _ => inr tt
        | inl e => inl e
        end)
  /\ (let c := Append "/a/b.txt" (Some "hi") in
      let rq1 := {| rq_url := "http://nn:50070/webhdfs/v1"; rq_method := "POST";
                    rq_relpath := Some "/a/b.txt";
                    rq_params := Some {[ "user.name" := VStr "hue_webui";
                                         "op" := VStr "APPEND" ]};
                    rq_data := None; rq_json_decode := true |} in
      let rq2 := {| rq_url := datanode_url; rq_method := "POST"; rq_relpath := None;
                    rq_params := None; rq_data := Some "hi";
                    rq_json_decode := false |} in
      rq_method rq1 = "POST"
      /\ rq_data rq1 = None
      /\ [rq2] = [rq2]
      /\ fst (run_write (H := sample) fs 0 c create_world)
         = match srv create_world (trace create_world ++ [rq1])%list rq2 with
           | inr _ => inr tt
           | inl e => inl e
           end).
Proof.
  split.
  - apply (redirect_write_second_leg (H := sample) fs 0%nat create_call create_world
             (snd (run_write (H := sample) fs 0 create_call create_world))
             (fst (run_write (H := sample) fs 0 create_call create_world))
             first_leg [second_leg]
             {| message := "HTTP Error 307: Temporary Redirect"; server_exc := None;
                parent_ex := Some (HTTPError 307 (Some datanode_url)) |}
             307 datanode_url).
    + apply surjective_pairing.
    + vm_compute. reflexivity.
    + vm_compute. reflexivity.
    + reflexivity.
    + cbn. tauto.
  - cbv zeta.
    apply (redirect_write_second_leg (H := sample) fs 0%nat
             (Append "/a/b.txt" (Some "hi")) create_world
             (snd (run_write (H := sample) fs 0 (Append "/a/b.txt" (Some "hi"))
                     create_world))
             (fst (run_write (H := sample) fs 0 (Append "/a/b.txt" (Some "hi"))
                     create_world))
             {| rq_url := "http://nn:50070/webhdfs/v1"; rq_method := "POST";
                rq_relpath := Some "/a/b.txt";
                rq_params := Some {[ "user.name" := VStr "hue_webui";
                                     "op" := VStr "APPEND" ]};
                rq_data := None; rq_json_decode := true |}
             [{| rq_url := datanode_url; rq_method := "POST"; rq_relpath := None;
                 rq_params := None; rq_data := Some "hi"; rq_json_decode := false |}]
             {| message := "HTTP Error 307: Temporary Redirect"; server_exc := None;
                parent_ex := Some (HTTPError 307 (Some datanode_url)) |}
             307 datanode_url).
    + apply surjective_pairing.
    + vm_compute. reflexivity.
    + vm_compute. reflexivity.
    + reflexivity.
    + cbn. tauto.
Defined.



(** C5 (as stated, refuted): when the server denies access, [exists]
    raises instead of returning true although [stats] does not signal
    [ENOENT]. *)
Lemma exists_raises_where_stats_is_not_absent :
  ~ (fst (exists_ (H := sample) fs 0 "/x" (world_of [access_denied])) = inr true
     <-> ~ exists msg, fst (stats (H := sample) fs 0 "/x" (world_of [access_denied]))
                       = inl (IOError (Some errno.ENOENT) msg)).
Proof.
  intros [_ Hback].
  assert (Htrue : fst (exists_ (H := sample) fs 0 "/x" (world_of [access_denied]))
                  = inr true).
  { apply Hback. intros [msg Hmsg]. vm_compute in Hmsg. discriminate Hmsg. }
  vm_compute in Htrue. discriminate Htrue.
Qed.

Lemma stats_exists_from_one_lookup_witness :
  fst (stats (H := sample) fs 0 "/a" (world_of [status_body "FILE"])) = inr ("/a", false)
  /\ fst (exists_ (H := sample) fs 0 "/a" (world_of [status_body "FILE"])) = inr true
  /\ fst (stats (H := sample) fs 0 "/x" (world_of [file_not_found]))
     = inl (IOError (Some errno.ENOENT) "File /x not found")
  /\ fst (exists_ (H := sample) fs 0 "/x" (world_of [file_not_found])) = inr false.
Proof.
  pose proof (stats_exists_from_one_lookup (H := sample) fs 0%nat "/a"
                (world_of [status_body "FILE"])
                (snd (_stats (H := sample) fs 0 "/a" (world_of [status_body "FILE"])))
                (fst (_stats (H := sample) fs 0 "/a" (world_of [status_body "FILE"])))
                (surjective_pairing _)) as (_ & Hex & _ & _ & _ & _ & Hsrv & _).
  pose proof (stats_exists_from_one_lookup (H := sample) fs 0%nat "/x"
                (world_of [file_not_found])
                (snd (_stats (H := sample) fs 0 "/x" (world_of [file_not_found])))
                (fst (_stats (H := sample) fs 0 "/x" (world_of [file_not_found])))
                (surjective_pairing _)) as (_ & Hex' & _ & _ & _ & _ & Hsrv' & _).
  split; [|split; [|split]].
  - destruct (Hsrv (stat_request "/a") []) as [Hfound _]; [vm_compute; reflexivity|].
    apply (Hfound (JObj [("FileStatus", JObj [("pathSuffix", JStr ""); ("type", JStr "FILE")])])
                  (JObj [("pathSuffix", JStr ""); ("type", JStr "FILE")]));
      reflexivity.
  - rewrite Hex. reflexivity.
  - destruct (Hsrv' (stat_request "/x") []) as [_ Habsent]; [vm_compute; reflexivity|].
    apply (Habsent {| message := "FileNotFoundException: File does not exist";
                      server_exc := Some "FileNotFoundException";
                      parent_ex := Some (HTTPError 404 None) |}); reflexivity.
  - rewrite Hex'. reflexivity.
Defined.

Lemma quiet_stats_suppresses_only_file_not_found_witness :
  (fst (_stats (H := sample) fs 0 "/x" (world_of [access_denied])) = inr None
   <-> Some "AccessControlException" = Some "FileNotFoundException")
  /\ (Some "AccessControlException" <> Some "FileNotFoundException" ->
      fst (_stats (H := sample) fs 0 "/x" (world_of [access_denied]))
      = inl (WebHdfsExc {| message := "AccessControlException: Permission denied";
                           server_exc := Some "AccessControlException";
                           parent_ex := Some (HTTPError 403 None) |})).
Proof.
  apply (quiet_stats_suppresses_only_file_not_found (H := sample) fs 0%nat "/x"
           (world_of [access_denied])
           (snd (_stats (H := sample) fs 0 "/x" (world_of [access_denied])))
           (fst (_stats (H := sample) fs 0 "/x" (world_of [access_denied])))
           (stat_request "/x") []
           {| message := "AccessControlException: Permission denied";
              server_exc := Some "AccessControlException";
              parent_ex := Some (HTTPError 403 None) |}).
  - apply surjective_pairing.
  - vm_compute. reflexivity.
  - reflexivity.
Defined.

Lemma fresh_parameters_per_call_witness :
  exists d : dict,
    d !! "user.name" = Some (VStr "hue_webui")
    /\ d !! "op" = Some (VStr "RENAME")
    /\ heap (snd (run_call (H := sample) fs 0 (CRename "/a" "/b")
                    (world_of [boolean_body true]))) = [d].
Proof.
  destruct (fresh_parameters_per_call (H := sample) fs 0%nat (CRename "/a" "/b")
              "hue_webui") as (d & Hname & Hop & Hall).
  exists d. split; [exact Hname|]. split; [exact Hop|].
  destruct (Hall (world_of [boolean_body true]) _ _ eq_refl (surjective_pairing _))
    as [Hheap _].
  exact Hheap.
Defined.

(** Two threads, two identities, one client: each call's dict holds its
    own identity and its own fields only. *)
Example two_identities :
  heap (snd ((setuser 1 "alice" ;;
              listdir_stats (H := sample) fs 0 "/a" (Some (VStr "*.txt")) ;;
              get_home_dir fs 1)%py
             (world_of [inr (JObj [("FileStatuses", JObj [("FileStatus", JArr [])])]);
                        inr (JObj [("Path", JStr "/user/alice")])])))
  = [ {[ "user.name" := VStr "hue_webui"; "filter" := VStr "*.txt";
         "op" := VStr "LISTSTATUS" ]};
      {[ "user.name" := VStr "alice"; "op" := VStr "GETHOMEDIRECTORY" ]} ].
Proof. vm_compute. reflexivity. Qed.

End AtWork.

(** ** The further properties at work *)

Section MoreAtWork.
Import Scenario.


Lemma call_fields_reach_the_request_witness :
  exists d : dict,
    rq_params rename_request = Some d
    /\ forall k v, In (k, v) (call_fields (H := sample) (CRename "/a" "/b")) -> d !! k = v.
Proof.
  apply (call_fields_reach_the_request (H := sample) fs 0%nat (CRename "/a" "/b")
           "hue_webui" (world_of [boolean_body true])
           (snd (run_call (H := sample) fs 0 (CRename "/a" "/b")
                   (world_of [boolean_body true])))
           (fst (run_call (H := sample) fs 0 (CRename "/a" "/b")
                   (world_of [boolean_body true])))
           rename_request []).
  - reflexivity.
  - apply surjective_pairing.
  - vm_compute. reflexivity.
Defined.

Lemma transport_failure_reaches_caller_witness :
  fst (run_call (H := sample) fs 0 (CRename "/a" "/b") (world_of [access_denied]))
  = inl (WebHdfsExc {| message := "AccessControlException: Permission denied";
                       server_exc := Some "AccessControlException";
                       parent_ex := Some (HTTPError 403 None) |}).
Proof.
  apply (transport_failure_reaches_caller (H := sample) fs 0%nat (CRename "/a" "/b")
           "hue_webui" (world_of [access_denied])
           (snd (run_call (H := sample) fs 0 (CRename "/a" "/b")
                   (world_of [access_denied])))
           _ rename_request []).
  - reflexivity.
  - reflexivity.
  - reflexivity.
  - apply surjective_pairing.
  - vm_compute. reflexivity.
  - reflexivity.
Defined.

Lemma consecutive_calls_each_send_witness :
  let c := CExists "/a" in
  let w := world_of [status_body "FILE"; file_not_found] in
  let w1 := snd (run_call (H := sample) fs 0 c w) in
  let w2 := snd (run_call (H := sample) fs 0 c w1) in
  exists d1 d2 : dict,
    trace w2 = (trace w ++ [call_request (H := sample) fs c d1;
                            call_request (H := sample) fs c d2])%list
    /\ heap w2 = (heap w ++ [d1; d2])%list
    /\ d1 !! "user.name" = Some (VStr "hue_webui")
    /\ d2 !! "user.name" = Some (VStr "hue_webui").
Proof.
  exact (consecutive_calls_each_send (H := sample) fs 0%nat (CExists "/a") (CExists "/a")
           "hue_webui" (world_of [status_body "FILE"; file_not_found]) _ _ _ _
           eq_refl eq_refl eq_refl (surjective_pairing _) (surjective_pairing _)).
Defined.

Lemma chown_chmod_ignore_body_witness :
  fst (chmod (H := sample) fs 0 "/a" (VInt 493) (world_of [boolean_body false])) = inr tt.
Proof.
  apply (chown_chmod_ignore_body (H := sample) fs 0%nat "/a" None None (VInt 493)
           (world_of [boolean_body false])
           (snd (chmod (H := sample) fs 0 "/a" (VInt 493) (world_of [boolean_body false])))
           _
           (request_of "PUT" "/a"
              {[ "user.name" := VStr "hue_webui"; "op" := VStr "SETPERMISSION";
                 "permission" := VStr "0755" ]})
           [] (JObj [("boolean", JBool false)])).
  - right. apply surjective_pairing.
  - vm_compute. reflexivity.
  - reflexivity.
Defined.

Lemma mkdir_fails_on_falsy_body_witness :
  fst (mkdir (H := sample) fs 0 "/a" None (world_of [inr (JObj [])]))
  = inl (IOError None "Mkdir failed: /a").
Proof.
  apply (mkdir_fails_on_falsy_body (H := sample) fs 0%nat "/a" None
           (world_of [inr (JObj [])])
           (snd (mkdir (H := sample) fs 0 "/a" None (world_of [inr (JObj [])])))
           _
           (request_of "PUT" "/a"
              {[ "user.name" := VStr "hue_webui"; "op" := VStr "MKDIRS" ]})
           [] (JObj [])).
  - apply surjective_pairing.
  - vm_compute. reflexivity.
  - reflexivity.
Defined.

Lemma delete_rename_read_boolean_entry_witness :
  fst (run_call (H := sample) fs 0 (CRename "/a" "/b") (world_of [inr (JObj [])]))
  = inl (KeyError "boolean").
Proof.
  apply (delete_rename_read_boolean_entry (H := sample) fs 0%nat (CRename "/a" "/b")
           (IOError None "Rename failed: /a -> /b")
           (world_of [inr (JObj [])])
           (snd (run_call (H := sample) fs 0 (CRename "/a" "/b")
                   (world_of [inr (JObj [])])))
           _ rename_request [] (JObj [])).
  - reflexivity.
  - apply surjective_pairing.
  - vm_compute. reflexivity.
  - reflexivity.
Defined.

Lemma redirect_without_location_witness :
  @nil Request = []
  /\ fst (run_write (H := sample) fs 0 create_call
            (world_of [inl (WebHdfsExc {| message := "HTTP Error 307";
                                          server_exc := None;
                                          parent_ex := Some (HTTPError 307 None) |})]))
     = inl (WebHdfsExc (WebHdfsException_of_message
              ("Failed to create '" +:+ write_path (H := sample) create_call
               +:+ "'. HDFS did not return a redirect"))).
Proof.
  apply (redirect_without_location (H := sample) fs 0%nat create_call
           (world_of [inl (WebHdfsExc {| message := "HTTP Error 307";
                                         server_exc := None;
                                         parent_ex := Some (HTTPError 307 None) |})])
           (snd (run_write (H := sample) fs 0 create_call
                   (world_of [inl (WebHdfsExc {| message := "HTTP Error 307";
                                                 server_exc := None;
                                                 parent_ex := Some (HTTPError 307 None) |})])))
           _ first_leg []
           {| message := "HTTP Error 307"; server_exc := None;
              parent_ex := Some (HTTPError 307 None) |} 307).
  - apply surjective_pairing.
  - vm_compute. reflexivity.
  - reflexivity.
  - reflexivity.
  - cbn. tauto.
Defined.

Lemma listdir_stats_entries_witness :
  fst (listdir_stats (H := sample) fs 0 "/d" None
         (world_of [inr (JObj [("FileStatuses",
                       JObj [("FileStatus",
                              JArr [JObj [("pathSuffix", JStr "x"); ("type", JStr "FILE")];
                                    JObj [("pathSuffix", JStr "y");
                                          ("type", JStr "DIRECTORY")]])])])]))
  = inr [("/d/x", false); ("/d/y", true)].
Proof.
  eapply (listdir_stats_entries (H := sample) fs 0%nat "/d" None
            (world_of [inr (JObj [("FileStatuses",
                       JObj [("FileStatus",
                              JArr [JObj [("pathSuffix", JStr "x"); ("type", JStr "FILE")];
                                    JObj [("pathSuffix", JStr "y");
                                          ("type", JStr "DIRECTORY")]])])])])
            _ _
            (request_of "GET" "/d"
               {[ "user.name" := VStr "hue_webui"; "op" := VStr "LISTSTATUS" ]})
            []).
  - apply surjective_pairing.
  - vm_compute. reflexivity.
  - reflexivity.
  - reflexivity.
  - reflexivity.
  - repeat constructor.
Defined.

Lemma File_init_absent_witness :
  fst (File_init (H := sample) fs 0 "/x" "rb" (world_of [file_not_found]))
  = inr {| _path := "/x"; _pos := 0; _mode := "rb"; _stat := None |}.
Proof.
  apply (File_init_absent (H := sample) fs 0%nat "/x" "rb" (world_of [file_not_found])).
  vm_compute. reflexivity.
Defined.

Lemma File_init_existing_file_witness :
  File_init (H := sample) fs 0 "/a" "r" (world_of [status_body "FILE"])
  = (inr (@mkFile sample "/a" 0 "r" (Some ("/a", false))),
     snd (_stats (H := sample) fs 0 "/a" (world_of [status_body "FILE"]))).
Proof.
  apply (File_init_existing_file (H := sample) fs 0%nat "/a" "r"
           (world_of [status_body "FILE"]) ("/a", false)).
  - vm_compute. reflexivity.
  - reflexivity.
Defined.

Lemma File_init_lookup_failure_witness :
  fst (File_init (H := sample) fs 0 "/x" "w" (world_of [access_denied]))
  = inl (WebHdfsExc {| message := "AccessControlException: Permission denied";
                       server_exc := Some "AccessControlException";
                       parent_ex := Some (HTTPError 403 None) |}).
Proof.
  apply (File_init_lookup_failure (H := sample) fs 0%nat "/x" "w"
           (world_of [access_denied])
           (WebHdfsExc {| message := "AccessControlException: Permission denied";
                          server_exc := Some "AccessControlException";
                          parent_ex := Some (HTTPError 403 None) |})).
  vm_compute. reflexivity.
Defined.

Lemma read_mode_handle_rejects_write_witness :
  File_write (H := sample) fs 0
    (@mkFile sample "/a" 0 "r" (Some ("/a", false)))
    (Some "hi") (world_of [])
  = (inl (IOError (Some errno.EINVAL) "File not open for writing"), world_of []).
Proof.
  apply (read_mode_handle_rejects_write (H := sample) fs 0%nat "/a" "r"
           (world_of [status_body "FILE"])
           (snd (_stats (H := sample) fs 0 "/a" (world_of [status_body "FILE"])))).
  - vm_compute. reflexivity.
  - reflexivity.
Defined.

Lemma write_routes_by_recorded_entry_witness :
  let f := (@mkFile sample "/x" 0 "w" None) in
  let w := world_of [redirect_307; inr (JStr "")] in
  exists (d : dict) (rest : list Request),
    trace (snd (File_write (H := sample) fs 0 f (Some "hi") w))
    = (trace w ++ {| rq_url := _url fs; rq_method := "PUT";
                     rq_relpath := Some "/x"; rq_params := Some d; rq_data := None;
                     rq_json_decode := true |} :: rest)%list
    /\ d !! "user.name" = Some (VStr "hue_webui")
    /\ d !! "op" = Some (VStr "CREATE")
    /\ (@None (string * bool) = None -> d !! "overwrite" = Some (VStr "false")).
Proof.
  exact (write_routes_by_recorded_entry (H := sample) fs 0%nat
           (@mkFile sample "/x" 0 "w" None)
           (Some "hi") "hue_webui" (world_of [redirect_307; inr (JStr "")]) _ _
           eq_refl eq_refl (surjective_pairing _)).
Defined.

Lemma setuser_is_per_thread_witness :
  let w := world_of [boolean_body true] in
  (exists (d : dict) (rest : list Request),
      trace (snd (run_call (H := sample) fs 1 (CRename "/a" "/b")
                    (snd (setuser 1 "alice" w))))
      = (trace w ++ call_request (H := sample) fs (CRename "/a" "/b") d :: rest)%list
      /\ d !! "user.name" = Some (VStr "alice"))
  /\ (exists (d : dict) (rest : list Request),
        trace (snd (run_call (H := sample) fs 0 (CRename "/a" "/b")
                      (snd (setuser 1 "alice" w))))
        = (trace w ++ call_request (H := sample) fs (CRename "/a" "/b") d :: rest)%list
        /\ d !! "user.name" = Some (VStr "hue_webui")).
Proof.
  cbv zeta. split.
  - exact (proj1 (setuser_is_per_thread (H := sample) fs 1%nat 1%nat "alice"
                    (CRename "/a" "/b") (world_of [boolean_body true]) _ _
                    (surjective_pairing _)) eq_refl).
  - refine (proj2 (setuser_is_per_thread (H := sample) fs 1%nat 0%nat "alice"
                     (CRename "/a" "/b") (world_of [boolean_body true]) _ _
                     (surjective_pairing _)) _ "hue_webui" eq_refl).
    discriminate.
Defined.


Lemma from_config_target_witness :
  _url fs = "http://" +:+ NN_HOST Sized.config +:+ ":"
            +:+ str_int (NN_HTTP_PORT Sized.config) +:+ "/webhdfs/v1".
Proof.
  destruct (from_config_target Sized.config 0%nat
              {| srv := scripted []; users := ∅; heap := []; trace := [] |}
              _ fs eq_refl) as (_ & _ & _ & Hdefault).
  apply Hdefault. right. reflexivity.
Defined.

Lemma seek_moves_only_the_position_witness :
  File_tell (snd (fst (File_seek (H := Sized.sized) Sized.sized_length fs 0 5 SEEK_CUR
                         (Sized.handle "r" 3 None) (world_of []))))
  = 3 + 5.
Proof.
  pose proof (seek_moves_only_the_position (H := Sized.sized) Sized.sized_length fs 0%nat
                5 SEEK_CUR (Sized.handle "r" 3 None) (world_of [])
                ltac:(discriminate)) as Hs.
  destruct (File_seek _ _ _ _ _ _ _) as [[r f'] w'].
  destruct Hs as (_ & _ & _ & _ & _ & Hcur & _).
  exact (proj2 (Hcur eq_refl)).
Defined.

Lemma seek_from_end_looks_up_twice_witness :
  let f := Sized.handle "r" 0 None in
  let w := world_of [Sized.file_body 10; Sized.file_body 12] in
  let out := File_seek (H := Sized.sized) Sized.sized_length fs 0 (-2) SEEK_END f w in
  exists (d1 d2 : dict) (st1 st2 : bool * Z) (w1 : World),
    stats (H := Sized.sized) fs 0 (_path f) w = (inr st1, w1)
    /\ stats (H := Sized.sized) fs 0 (_path f) w1 = (inr st2, snd out)
    /\ trace (snd out)
       = (trace w ++ [call_request (H := Sized.sized) fs (CStats (_path f)) d1;
                      call_request (H := Sized.sized) fs (CStats (_path f)) d2])%list
    /\ _stat (snd (fst out)) = Some st1
    /\ File_tell (snd (fst out)) = Sized.sized_length st2 + (-2)
    /\ _path (snd (fst out)) = _path f /\ _mode (snd (fst out)) = _mode f.
Proof.
  cbv zeta.
  apply (seek_from_end_looks_up_twice (H := Sized.sized) Sized.sized_length fs 0%nat (-2)
           (Sized.handle "r" 0 None) _ "hue_webui"
           (world_of [Sized.file_body 10; Sized.file_body 12]) _).
  - reflexivity.
  - vm_compute. reflexivity.
Defined.

Lemma read_advances_by_returned_bytes_witness :
  let f := Sized.handle "r" 3 None in
  let w := world_of [inr (JStr "hello")] in
  let out := File_read (H := Sized.sized) fs 0 5 f w in
  exists (d : dict) (rq : Request),
    trace (snd out) = (trace w ++ [rq])%list
    /\ rq = call_request (H := Sized.sized) fs (CRead (_path f) (File_tell f) 5 None) d
    /\ d !! "offset" = Some (VLong (File_tell f))
    /\ d !! "length" = Some (VLong 5)
    /\ d !! "bufsize" = None
    /\ (forall data, srv w (trace w) rq = inr (JStr data) ->
          fst (fst out) = inr (JStr data)
          /\ File_tell (snd (fst out)) = File_tell f + Z.of_nat (String.length data)
          /\ _path (snd (fst out)) = _path f /\ _mode (snd (fst out)) = _mode f
          /\ _stat (snd (fst out)) = _stat f)
    /\ (forall e, srv w (trace w) rq = inl e ->
          fst (fst out) = inl e /\ snd (fst out) = f).
Proof.
  cbv zeta.
  apply (read_advances_by_returned_bytes (H := Sized.sized) fs 0%nat 5
           (Sized.handle "r" 3 None) _ "hue_webui" (world_of [inr (JStr "hello")]) _ _).
  - reflexivity.
  - vm_compute. reflexivity.
Defined.

Lemma reads_are_contiguous_witness :
  ({[ "user.name" := VStr "hue_webui"; "op" := VStr "OPEN"; "offset" := VLong 5;
      "length" := VLong 4 ]} : dict) !! "offset"
  = Some (VLong (File_tell (Sized.handle "r" 0 None)
                 + Z.of_nat (String.length "hello"))).
Proof.
  apply (reads_are_contiguous (H := Sized.sized) fs 0%nat 5 4
           (Sized.handle "r" 0 None)
           (Sized.handle "r" 5 None)
           (snd (fst (File_read (H := Sized.sized) fs 0 4 (Sized.handle "r" 5 None)
                   (snd (File_read (H := Sized.sized) fs 0 5 (Sized.handle "r" 0 None)
                           (world_of [inr (JStr "hello"); inr (JStr "wor")]))))))
           "hue_webui"
           (world_of [inr (JStr "hello"); inr (JStr "wor")])
           (snd (File_read (H := Sized.sized) fs 0 5 (Sized.handle "r" 0 None)
                   (world_of [inr (JStr "hello"); inr (JStr "wor")])))
           (snd (File_read (H := Sized.sized) fs 0 4 (Sized.handle "r" 5 None)
                   (snd (File_read (H := Sized.sized) fs 0 5 (Sized.handle "r" 0 None)
                           (world_of [inr (JStr "hello"); inr (JStr "wor")])))))
           "hello"
           (fst (fst (File_read (H := Sized.sized) fs 0 4 (Sized.handle "r" 5 None)
                   (snd (File_read (H := Sized.sized) fs 0 5 (Sized.handle "r" 0 None)
                           (world_of [inr (JStr "hello"); inr (JStr "wor")]))))))
           {| rq_url := "http://nn:50070/webhdfs/v1"; rq_method := "GET";
              rq_relpath := Some "/a";
              rq_params := Some {[ "user.name" := VStr "hue_webui"; "op" := VStr "OPEN";
                                   "offset" := VLong 5; "length" := VLong 4 ]};
              rq_data := None; rq_json_decode := false |}).
  - reflexivity.
  - vm_compute. reflexivity.
  - vm_compute. reflexivity.
  - vm_compute. reflexivity.
  - reflexivity.
Defined.

End MoreAtWork.
